(** * Simulated benzene readings: generation, integrity tag and database load

    A shallow embedding of [población.py].  The script fabricates a time
    series of sensor readings, tags each one with a severity tier and an MD5
    integrity hash, and bulk-loads the series into PostgreSQL.

    Python values are modelled as the interpreter has them: a [float] is a
    binary64 number (Rocq's primitive floats), a [str] is given by its UTF-8
    bytes (a lone surrogate by the bytes of its code point), a [datetime] by
    its calendar fields, a row by the ordered list of its keys and values.
    The library functions the script calls ([round], [repr],
    [random.uniform], [hashlib.md5], [str.encode], [datetime] arithmetic,
    [psycopg2.extras.execute_values]) are written out so that every
    definition below can be evaluated. *)

From Stdlib Require Import ZArith List String Ascii Bool Lia Floats DecimalString.
Import ListNotations.
Open Scope string_scope.
Open Scope Z_scope.
Set Warnings "-inexact-float".

(** ** Text helpers *)

Module PyStr.

(** Decimal numeral of a non-negative integer. *)
Definition decimal (n : Z) : string :=
  NilEmpty.string_of_uint (N.to_uint (Z.to_N n)).

Fixpoint zeros (n : nat) : string :=
  match n with
  | O => EmptyString
  | S n' => String "0" (zeros n')
  end.

(** ["%0<w>d" % n] for [n >= 0]. *)
Definition zfill (w : nat) (n : Z) : string :=
  let s := decimal n in zeros (w - String.length s) ++ s.

(** [str(n)] for an [int]. *)
Definition str_int (n : Z) : string :=
  if n <? 0 then "-" ++ decimal (- n) else decimal n.

Definition newline : string := String (ascii_of_nat 10) EmptyString.

(** A [str] is given by the bytes of its UTF-8 encoding.  A surrogate
    [U+D800 .. U+DFFF], which a [str] may hold and UTF-8 does not encode, is
    given by the three bytes its code point would take (what the
    [surrogatepass] handler writes): [0xED], a byte of [0xA0 .. 0xBF], a
    continuation byte. *)
Definition byte (c : ascii) : N := N_of_ascii c.

Definition continuation (c : ascii) : bool :=
  (128 <=? byte c)%N && (byte c <=? 191)%N.

(** Does the text start with a surrogate? *)
Definition surrogate_head (s : string) : bool :=
  match s with
  | String c1 (String c2 (String c3 _)) =>
      (byte c1 =? 237)%N && (160 <=? byte c2)%N && (byte c2 <=? 191)%N
      && continuation c3
  | _ => false
  end.

Fixpoint has_surrogate (s : string) : bool :=
  match s with
  | EmptyString => false
  | String _ rest => surrogate_head s || has_surrogate rest
  end.

(** The first surrogate: its index in characters, [pos] being the index of
    the head of [s], and the text from there on. *)
Fixpoint find_surrogate (s : string) (pos : nat) : option (nat * string) :=
  match s with
  | EmptyString => None
  | String c rest =>
      if surrogate_head s then Some (pos, s)
      else find_surrogate rest (if continuation c then pos else S pos)
  end.

(** Number of surrogates in a row at the head of the text. *)
Fixpoint surrogate_run (s : string) : nat :=
  match s with
  | String _ (String _ (String _ rest)) =>
      if surrogate_head s then S (surrogate_run rest) else O
  | _ => O
  end.

(** Code point of the surrogate at the head of the text. *)
Definition surrogate_code (s : string) : N :=
  match s with
  | String _ (String c2 (String c3 _)) =>
      (55296 + (byte c2 - 160) * 64 + (byte c3 - 128))%N
  | _ => 0%N
  end.

Definition hex_digit (n : N) : ascii :=
  nth (N.to_nat n) (list_ascii_of_string "0123456789abcdef") "0"%char.

(** ["%04x" % n] for [n < 65536]. *)
Definition hex4 (n : N) : string :=
  String (hex_digit (n / 4096))
    (String (hex_digit (n / 256 mod 16))
       (String (hex_digit (n / 16 mod 16))
          (String (hex_digit (n mod 16)) EmptyString))).

End PyStr.

(** ** Floats: [random.uniform], [round] and [repr] *)

Module PyFloat.

(** [random.uniform(a, b)] is [a + (b - a) * self.random()]; [u] is the value
    that call of [random()] returns. *)
Definition uniform (a b u : float) : float := (a + (b - a) * u)%float.

(** Nearest integer to [a / b] for [b > 0], ties to the even integer. *)
Definition div_half_even (a b : Z) : Z :=
  let q := a / b in
  match 2 * (a mod b) ?= b with
  | Lt => q
  | Gt => q + 1
  | Eq => if Z.even q then q else q + 1
  end.

(** The binary64 number nearest to [num / den] (ties to even), with sign [s]:
    what [strtod] returns for a decimal numeral of that value. *)
Definition nearest_binary64 (s : bool) (num den : positive) : spec_float :=
  SFdiv prec emax (S754_finite s num 0) (S754_finite false den 0).

(** The exact value [m * 2^e] of a finite float, as a fraction. *)
Definition fraction_of (m : positive) (e : Z) : positive * positive :=
  match e with
  | Z0 => (m, 1%positive)
  | Zpos p => (m * 2 ^ p, 1)%positive
  | Zneg p => (m, 2 ^ p)%positive
  end.

(** [round(x, ndigits)] for [ndigits >= 0]: the exact value of [x] is rounded
    half-even to [ndigits] decimals and the decimal is read back as a float;
    infinities, NaN and zeros round to themselves. *)
Definition round (x : float) (ndigits : N) : float :=
  match Prim2SF x with
  | S754_finite s m e =>
      let '(num, den) := fraction_of m e in
      let p10 := (10 ^ ndigits)%N in
      match div_half_even (Zpos num * Z.of_N p10) (Zpos den), p10 with
      | Zpos d, Npos p => SF2Prim (nearest_binary64 s d p)
      | _, _ => SF2Prim (S754_zero s)
      end
  | _ => x
  end.

(** [num / den * 10^k] as a fraction. *)
Definition scale10 (num den : positive) (k : Z) : positive * positive :=
  match k with
  | Z0 => (num, den)
  | Zpos p => (num * 10 ^ p, den)%positive
  | Zneg p => (num, den * 10 ^ p)%positive
  end.

(** Does the decimal [D * 10^k] read back as the float [m * 2^e]? *)
Definition reads_back (m : positive) (e : Z) (D : Z) (k : Z) : bool :=
  match D with
  | Zpos d =>
      let '(n, q) := scale10 d 1 k in
      match nearest_binary64 false n q with
      | S754_finite _ m' e' => Pos.eqb m m' && Z.eqb e e'
      | _ => false
      end
  | _ => false
  end.

(** Position of the leading decimal digit: [10^p <= num/den < 10^(p+1)]. *)
Definition log10_floor (num den : positive) : Z :=
  let c := Z.of_nat (String.length (PyStr.decimal (Zpos num)))
           - Z.of_nat (String.length (PyStr.decimal (Zpos den))) in
  let '(n, d) := scale10 num den (- c) in
  if Zpos d <=? Zpos n then c else c - 1.

(** The shortest digit string that reads back as [m * 2^e], the nearest to
    it when two of that length do; [n] is the number of digits tried. *)
Fixpoint shortest_from (fuel : nat) (n : Z) (m : positive) (e : Z)
    (num den : positive) (p : Z) : Z * Z :=
  let k := p - n + 1 in
  let '(a, b) := scale10 num den (- k) in
  let lo := Zpos a / Zpos b in
  let r := Zpos a mod Zpos b in
  let lo_ok := reads_back m e lo k in
  let hi_ok := reads_back m e (lo + 1) k in
  let up := match 2 * r ?= Zpos b with
            | Lt => false
            | Gt => true
            | Eq => negb (Z.even lo)
            end in
  match fuel with
  | O => (if up then lo + 1 else lo, k)
  | S fuel' =>
      if lo_ok && hi_ok then (if up then lo + 1 else lo, k)
      else if lo_ok then (lo, k)
      else if hi_ok then (lo + 1, k)
      else shortest_from fuel' (n + 1) m e num den p
  end.

Fixpoint strip_zeros (fuel : nat) (D k : Z) : Z * Z :=
  match fuel with
  | O => (D, k)
  | S fuel' =>
      if (D mod 10 =? 0) && (0 <? D)
      then strip_zeros fuel' (D / 10) (k + 1)
      else (D, k)
  end.

Definition two_digits (n : Z) : string :=
  if n <? 10 then String "0" (PyStr.decimal n) else PyStr.decimal n.

(** Layout of [repr]: the digits [ds] with the decimal point after [decpt]
    of them, in exponent form when [decpt <= -4] or [decpt > 16]. *)
Definition layout (ds : string) (decpt : Z) : string :=
  let len := Z.of_nat (String.length ds) in
  if (decpt <=? -4) || (16 <? decpt) then
    let mant := match ds with
                | String c (String c' rest) => String c (String "." (String c' rest))
                | _ => ds
                end in
    let ex := decpt - 1 in
    mant ++ "e" ++ (if ex <? 0 then "-" else "+") ++ two_digits (Z.abs ex)
  else if decpt <=? 0 then
    "0." ++ PyStr.zeros (Z.to_nat (- decpt)) ++ ds
  else if decpt <? len then
    substring 0 (Z.to_nat decpt) ds ++ "." ++
    substring (Z.to_nat decpt) (Z.to_nat (len - decpt)) ds
  else
    ds ++ PyStr.zeros (Z.to_nat (decpt - len)) ++ ".0".

(** [repr(x)], which is also [str(x)] and what an f-string prints. *)
Definition repr (x : float) : string :=
  match Prim2SF x with
  | S754_nan => "nan"
  | S754_infinity s => if s then "-inf" else "inf"
  | S754_zero s => if s then "-0.0" else "0.0"
  | S754_finite s m e =>
      let '(num, den) := fraction_of m e in
      let p := log10_floor num den in
      let '(D0, k0) := shortest_from 17 1 m e num den p in
      let '(D, k) := strip_zeros 20 D0 k0 in
      let ds := PyStr.decimal D in
      (if s then "-" else "") ++ layout ds (Z.of_nat (String.length ds) + k)
  end.

End PyFloat.

(** ** MD5 (RFC 1321), as [hashlib.md5] computes it *)

Module Md5.

Definition mask32 (x : Z) : Z := x mod 2 ^ 32.
Definition add32 (x y : Z) : Z := mask32 (x + y).
Definition not32 (x : Z) : Z := Z.lxor x 0xffffffff.
Definition rotl32 (x c : Z) : Z :=
  Z.lor (mask32 (Z.shiftl x c)) (Z.shiftr x (32 - c)).

(** Per-round left-rotation amounts. *)
Definition s_table : list Z :=
  [7; 12; 17; 22; 7; 12; 17; 22; 7; 12; 17; 22; 7; 12; 17; 22;
   5; 9; 14; 20; 5; 9; 14; 20; 5; 9; 14; 20; 5; 9; 14; 20;
   4; 11; 16; 23; 4; 11; 16; 23; 4; 11; 16; 23; 4; 11; 16; 23;
   6; 10; 15; 21; 6; 10; 15; 21; 6; 10; 15; 21; 6; 10; 15; 21].

(** [K[i] = floor(2^32 * |sin (i + 1)|)]. *)
Definition k_table : list Z :=
  [
   0xd76aa478; 0xe8c7b756; 0x242070db; 0xc1bdceee;
   0xf57c0faf; 0x4787c62a; 0xa8304613; 0xfd469501;
   0x698098d8; 0x8b44f7af; 0xffff5bb1; 0x895cd7be;
   0x6b901122; 0xfd987193; 0xa679438e; 0x49b40821;
   0xf61e2562; 0xc040b340; 0x265e5a51; 0xe9b6c7aa;
   0xd62f105d; 0x02441453; 0xd8a1e681; 0xe7d3fbc8;
   0x21e1cde6; 0xc33707d6; 0xf4d50d87; 0x455a14ed;
   0xa9e3e905; 0xfcefa3f8; 0x676f02d9; 0x8d2a4c8a;
   0xfffa3942; 0x8771f681; 0x6d9d6122; 0xfde5380c;
   0xa4beea44; 0x4bdecfa9; 0xf6bb4b60; 0xbebfbc70;
   0x289b7ec6; 0xeaa127fa; 0xd4ef3085; 0x04881d05;
   0xd9d4d039; 0xe6db99e5; 0x1fa27cf8; 0xc4ac5665;
   0xf4292244; 0x432aff97; 0xab9423a7; 0xfc93a039;
   0x655b59c3; 0x8f0ccc92; 0xffeff47d; 0x85845dd1;
   0x6fa87e4f; 0xfe2ce6e0; 0xa3014314; 0x4e0811a1;
   0xf7537e82; 0xbd3af235; 0x2ad7d2bb; 0xeb86d391].

Definition bytes_of_string (s : string) : list Z :=
  map (fun c => Z.of_nat (nat_of_ascii c)) (list_ascii_of_string s).

(** [n] as [len] little-endian bytes. *)
Fixpoint le_bytes (len : nat) (n : Z) : list Z :=
  match len with
  | O => []
  | S len' => n mod 256 :: le_bytes len' (n / 256)
  end.

Fixpoint le_word (bs : list Z) : Z :=
  match bs with
  | [] => 0
  | b :: bs' => b + 256 * le_word bs'
  end.

(** The message followed by 0x80, zeros up to 56 modulo 64, and the bit
    length on 64 bits. *)
Definition pad (msg : list Z) : list Z :=
  let len := Z.of_nat (List.length msg) in
  let nz := (55 - len) mod 64 in
  (msg ++ [0x80] ++ repeat 0 (Z.to_nat nz) ++ le_bytes 8 ((8 * len) mod 2 ^ 64))%list.

Fixpoint words (n : nat) (bs : list Z) : list Z :=
  match n with
  | O => []
  | S n' => le_word (firstn 4 bs) :: words n' (skipn 4 bs)
  end.

Definition state : Type := Z * Z * Z * Z.

Definition step (M : list Z) (st : state) (i : Z) : state :=
  let '(A, B, C, D) := st in
  let '(F, g) :=
    if i <? 16 then (Z.lor (Z.land B C) (Z.land (not32 B) D), i)
    else if i <? 32 then (Z.lor (Z.land D B) (Z.land (not32 D) C), (5 * i + 1) mod 16)
    else if i <? 48 then (Z.lxor (Z.lxor B C) D, (3 * i + 5) mod 16)
    else (Z.lxor C (Z.lor B (not32 D)), (7 * i) mod 16) in
  let F' := add32 (add32 (add32 F A) (nth (Z.to_nat i) k_table 0))
                  (nth (Z.to_nat g) M 0) in
  (D, add32 B (rotl32 F' (nth (Z.to_nat i) s_table 0)), B, C).

Definition rounds : list Z := map Z.of_nat (seq 0 64).

Definition compress (st : state) (chunk : list Z) : state :=
  let '(a0, b0, c0, d0) := st in
  let '(A, B, C, D) := fold_left (step (words 16 chunk)) rounds st in
  (add32 a0 A, add32 b0 B, add32 c0 C, add32 d0 D).

Fixpoint chunks (n : nat) (bs : list Z) : list (list Z) :=
  match n with
  | O => []
  | S n' => firstn 64 bs :: chunks n' (skipn 64 bs)
  end.

Definition init : state := (0x67452301, 0xefcdab89, 0x98badcfe, 0x10325476).

Definition digest (msg : list Z) : list Z :=
  let p := pad msg in
  let '(a, b, c, d) := fold_left compress (chunks (List.length p / 64) p) init in
  (le_bytes 4 a ++ le_bytes 4 b ++ le_bytes 4 c ++ le_bytes 4 d)%list.

Definition hex_digit (n : Z) : ascii :=
  nth (Z.to_nat n)
    (list_ascii_of_string "0123456789abcdef") "0"%char.

Fixpoint hex (bs : list Z) : string :=
  match bs with
  | [] => EmptyString
  | b :: bs' => String (hex_digit (b / 16)) (String (hex_digit (b mod 16)) (hex bs'))
  end.

(** [hashlib.md5(b).hexdigest()] of the bytes [b]. *)
Definition hexdigest (s : string) : string := hex (digest (bytes_of_string s)).

End Md5.

(** ** Dates and times, after [datetime] *)

Module PyDatetime.

(** [date], [time] and naive [datetime] values, by their fields. *)
Record date := mkDate { year : Z; month : Z; day : Z }.
Record time := mkTime { hour : Z; minute : Z; second : Z; microsecond : Z }.
(** [dt_date] and [dt_time] are [.date()] and [.time()]. *)
Record datetime := mkDatetime { dt_date : date; dt_time : time }.

Definition MAXYEAR : Z := 9999.
Definition MAXORDINAL : Z := 3652059.

Definition is_leap (y : Z) : bool :=
  (y mod 4 =? 0) && (negb (y mod 100 =? 0) || (y mod 400 =? 0)).

Definition days_before_year (y : Z) : Z :=
  let y := y - 1 in y * 365 + y / 4 - y / 100 + y / 400.

Definition DAYS_IN_MONTH (m : Z) : Z :=
  nth (Z.to_nat m) [-1; 31; 28; 31; 30; 31; 30; 31; 31; 30; 31; 30; 31] 0.

Definition DAYS_BEFORE_MONTH (m : Z) : Z :=
  nth (Z.to_nat m) [-1; 0; 31; 59; 90; 120; 151; 181; 212; 243; 273; 304; 334] 0.

Definition days_in_month (y m : Z) : Z :=
  if (m =? 2) && is_leap y then 29 else DAYS_IN_MONTH m.

Definition days_before_month (y m : Z) : Z :=
  DAYS_BEFORE_MONTH m + (if (2 <? m) && is_leap y then 1 else 0).

Definition ymd2ord (y m d : Z) : Z :=
  days_before_year y + days_before_month y m + d.

Definition DI400Y : Z := 146097.
Definition DI100Y : Z := 36524.
Definition DI4Y : Z := 1461.

Definition ord2ymd (n : Z) : date :=
  let n := n - 1 in
  let n400 := n / DI400Y in
  let n := n mod DI400Y in
  let y := n400 * 400 + 1 in
  let n100 := n / DI100Y in
  let n := n mod DI100Y in
  let n4 := n / DI4Y in
  let n := n mod DI4Y in
  let n1 := n / 365 in
  let n := n mod 365 in
  let y := y + n100 * 100 + n4 * 4 + n1 in
  if (n1 =? 4) || (n100 =? 4) then mkDate (y - 1) 12 31
  else
    let leapyear := (n1 =? 3) && (negb (n4 =? 24) || (n100 =? 3)) in
    let m := Z.shiftr (n + 50) 5 in
    let preceding := DAYS_BEFORE_MONTH m + (if (2 <? m) && leapyear then 1 else 0) in
    if n <? preceding then
      let m := m - 1 in
      let preceding :=
        preceding - (DAYS_IN_MONTH m + (if (m =? 2) && leapyear then 1 else 0)) in
      mkDate y m (n - preceding + 1)
    else mkDate y m (n - preceding + 1).

Definition toordinal (d : date) : Z := ymd2ord (year d) (month d) (day d).
Definition fromordinal (n : Z) : date := ord2ymd n.

Definition valid_date (d : date) : bool :=
  (1 <=? year d) && (year d <=? MAXYEAR) && (1 <=? month d) && (month d <=? 12)
  && (1 <=? day d) && (day d <=? days_in_month (year d) (month d)).

Definition valid_time (t : time) : bool :=
  (0 <=? hour t) && (hour t <? 24) && (0 <=? minute t) && (minute t <? 60)
  && (0 <=? second t) && (second t <? 60)
  && (0 <=? microsecond t) && (microsecond t <? 1000000).

Definition valid_datetime (dt : datetime) : bool :=
  valid_date (dt_date dt) && valid_time (dt_time dt).

(** Seconds from midnight. *)
Definition seconds_of_day (t : time) : Z :=
  hour t * 3600 + minute t * 60 + second t.

(** [dt + timedelta(seconds=n)]: the ordinal day and the seconds of the day
    are summed and normalised; [None] is the [OverflowError] raised when the
    day leaves [1 .. MAXORDINAL]. *)
Definition add_seconds (dt : datetime) (n : Z) : option datetime :=
  let total := seconds_of_day (dt_time dt) + n in
  let days := toordinal (dt_date dt) + total / 86400 in
  let secs := total mod 86400 in
  let h := secs / 3600 in
  let rem := secs mod 3600 in
  if (0 <? days) && (days <=? MAXORDINAL)
  then Some (mkDatetime (fromordinal days)
               (mkTime h (rem / 60) (rem mod 60) (microsecond (dt_time dt))))
  else None.

(** Seconds elapsed since the start of day 0 of the proleptic calendar. *)
Definition timestamp (dt : datetime) : Z :=
  toordinal (dt_date dt) * 86400 + seconds_of_day (dt_time dt).

(** [date.isoformat()], which is [str(date)]. *)
Definition date_isoformat (d : date) : string :=
  PyStr.zfill 4 (year d) ++ "-" ++ PyStr.zfill 2 (month d) ++ "-"
  ++ PyStr.zfill 2 (day d).

(** [time.isoformat()], which is [str(time)]. *)
Definition time_isoformat (t : time) : string :=
  PyStr.zfill 2 (hour t) ++ ":" ++ PyStr.zfill 2 (minute t) ++ ":"
  ++ PyStr.zfill 2 (second t)
  ++ (if microsecond t =? 0 then "" else "." ++ PyStr.zfill 6 (microsecond t)).

(** [str(datetime)], which is [isoformat(sep=' ')]. *)
Definition datetime_str (dt : datetime) : string :=
  date_isoformat (dt_date dt) ++ " " ++ time_isoformat (dt_time dt).

End PyDatetime.

(** ** Values, rows and exceptions *)

Import PyDatetime.

Inductive valor : Type :=
| VDate (d : date)
| VTime (t : time)
| VDatetime (dt : datetime)
| VStr (s : string)
| VFloat (x : float)
| VInt (n : Z).

(** What an f-string field [{v}] prints. *)
Definition py_format (v : valor) : string :=
  match v with
  | VDate d => date_isoformat d
  | VTime t => time_isoformat t
  | VDatetime dt => datetime_str dt
  | VStr s => s
  | VFloat x => PyFloat.repr x
  | VInt n => PyStr.str_int n
  end.

(** A row is a [dict] with string keys: its items in insertion order. *)
Definition dict : Type := list (string * valor).

Fixpoint dict_get (k : string) (d : dict) : option valor :=
  match d with
  | [] => None
  | (k', v) :: d' => if String.eqb k k' then Some v else dict_get k d'
  end.

(** [d[k] = v]: an existing key keeps its place. *)
Fixpoint dict_set (k : string) (v : valor) (d : dict) : dict :=
  match d with
  | [] => [(k, v)]
  | (k', v') :: d' =>
      if String.eqb k k' then (k, v) :: d' else (k', v') :: dict_set k v d'
  end.

Definition keys (d : dict) : list string := map fst d.

(** [UnicodeEncodeError] keeps the run [inicio .. fin) of characters that
    cannot be encoded and the code point of the first one. *)
Inductive excepcion : Type :=
| KeyError (k : string)
| IndexError
| OverflowError
| UnicodeEncodeError (inicio fin : nat) (codigo : N)
| DatabaseError (msg : string).

(** [str(e)]. *)
Definition str_excepcion (e : excepcion) : string :=
  match e with
  | KeyError k => "'" ++ k ++ "'"
  | IndexError => "list index out of range"
  | OverflowError => "date value out of range"
  | UnicodeEncodeError inicio fin codigo =>
      if (fin =? S inicio)%nat then
        "'utf-8' codec can't encode character '\u" ++ PyStr.hex4 codigo
        ++ "' in position " ++ PyStr.decimal (Z.of_nat inicio)
        ++ ": surrogates not allowed"
      else
        "'utf-8' codec can't encode characters in position "
        ++ PyStr.decimal (Z.of_nat inicio) ++ "-"
        ++ PyStr.decimal (Z.of_nat (fin - 1)) ++ ": surrogates not allowed"
  | DatabaseError msg => msg
  end.

(** A computation that returns or raises. *)
Definition resultado (A : Type) : Type := (excepcion + A)%type.

Definition bind {A B : Type} (m : resultado A) (f : A -> resultado B)
  : resultado B :=
  match m with
  | inl e => inl e
  | inr a => f a
  end.

Notation "x <- m ;; k" := (bind m (fun x => k))
  (at level 61, m at next level, right associativity).

(** [d[k]]. *)
Definition subscript (d : dict) (k : string) : resultado valor :=
  match dict_get k d with
  | Some v => inr v
  | None => inl (KeyError k)
  end.

(** [s.encode("utf-8")]: the bytes of the text, unless it holds a
    surrogate. *)
Definition encode_utf8 (s : string) : resultado string :=
  match PyStr.find_surrogate s 0 with
  | Some (pos, resto) =>
      inl (UnicodeEncodeError pos (pos + PyStr.surrogate_run resto)
             (PyStr.surrogate_code resto))
  | None => inr s
  end.

(** ** General configuration *)

Record config : Type := {
  ID_SENSOR : string;
  ID_MICRO : string;
  ID_LINEA : string;
  ID_FABRICA : string;
  NUM_REGISTROS : Z;
  FECHA_INICIAL : datetime
}.

(** The constants of the script. *)
Definition config_script : config := {|
  ID_SENSOR := "A1S01";
  ID_MICRO := "A1M01";
  ID_LINEA := "A1";
  ID_FABRICA := "A";
  NUM_REGISTROS := 1000;
  FECHA_INICIAL := mkDatetime (mkDate 2025 1 1) (mkTime 8 0 0 0)
|}.

(** ** Auxiliary functions *)

Definition clasificar_ppm (ppm : float) : Z :=
  if (ppm <=? 0.5)%float then 1
  else if (ppm <=? 1)%float then 2
  else if (ppm <=? 10)%float then 3
  else if (ppm <=? 50)%float then 4
  else if (ppm <=? 500)%float then 5
  else 6.

(** The string that is hashed. *)
Definition base_str (fecha hora id_sensor ppm_benceno : valor) : string :=
  py_format fecha ++ py_format hora ++ py_format id_sensor
  ++ py_format ppm_benceno.

Definition generar_hash_integridad (row : dict) : resultado string :=
  fecha <- subscript row "fecha" ;;
  hora <- subscript row "hora" ;;
  id_sensor <- subscript row "id_sensor" ;;
  ppm_benceno <- subscript row "ppm_benceno" ;;
  datos <- encode_utf8 (base_str fecha hora id_sensor ppm_benceno) ;;
  inr (Md5.hexdigest datos).

(** The successive values of [random.random()]: the script does not seed the
    generator, so the sequence is a parameter. *)
Definition azar : Type := nat -> float.

(** One pass of the loop body of [generar_registros_simulados], up to the
    hash; [k] counts the draws made so far. *)
Definition fila_simulada (id_sensor id_micro id_linea id_fabrica : string)
    (instante : datetime) (rnd : azar) (k : nat) : resultado dict :=
  let fecha := dt_date instante in
  let hora := dt_time instante in
  let ppm := PyFloat.round (PyFloat.uniform 0 80 (rnd k)) 2 in
  let id_clasif := clasificar_ppm ppm in
  let geo_lat := (6.2442 + PyFloat.uniform (-0.01) 0.01 (rnd (k + 1)%nat))%float in
  let geo_lon := (-75.5812 + PyFloat.uniform (-0.01) 0.01 (rnd (k + 2)%nat))%float in
  let geo_alt := (1500 + PyFloat.uniform (-10) 10 (rnd (k + 3)%nat))%float in
  let temperatura := PyFloat.round (PyFloat.uniform 18 35 (rnd (k + 4)%nat)) 1 in
  let humedad := PyFloat.round (PyFloat.uniform 40 90 (rnd (k + 5)%nat)) 1 in
  let estado_tx := "O" in
  let timestamp_envio := instante in
  let observaciones := "" in
  let origen_formato := "simulacion_py" in
  let row :=
    [ ("fecha", VDate fecha);
      ("hora", VTime hora);
      ("id_sensor", VStr id_sensor);
      ("id_micro", VStr id_micro);
      ("id_linea", VStr id_linea);
      ("id_fabrica", VStr id_fabrica);
      ("ppm_benceno", VFloat ppm);
      ("id_clasificacion", VInt id_clasif);
      ("geo_latitud", VFloat geo_lat);
      ("geo_longitud", VFloat geo_lon);
      ("geo_altitud", VFloat geo_alt);
      ("temperatura", VFloat temperatura);
      ("humedad", VFloat humedad);
      ("estado_transmision", VStr estado_tx);
      ("timestamp_envio", VDatetime timestamp_envio);
      ("observaciones", VStr observaciones);
      ("hash_integridad", VStr "");
      ("origen_formato", VStr origen_formato) ] in
  h <- generar_hash_integridad row ;;
  inr (dict_set "hash_integridad" (VStr h) row).

(** [instante += timedelta(seconds=10)]. *)
Definition avanzar (instante : datetime) : resultado datetime :=
  match add_seconds instante 10 with
  | Some instante' => inr instante'
  | None => inl OverflowError
  end.

(** The [for] loop, [n] iterations from the state [(instante, k, registros)]. *)
Fixpoint bucle (n : nat) (id_sensor id_micro id_linea id_fabrica : string)
    (rnd : azar) (instante : datetime) (k : nat) (registros : list dict)
  : resultado (list dict) :=
  match n with
  | O => inr registros
  | S n' =>
      row <- fila_simulada id_sensor id_micro id_linea id_fabrica instante rnd k ;;
      let registros := (registros ++ [row])%list in
      instante' <- avanzar instante ;;
      bucle n' id_sensor id_micro id_linea id_fabrica rnd instante' (k + 6)
        registros
  end.

(** [range(num_registros)] is empty for a negative count. *)
Definition generar_registros_simulados (num_registros : Z)
    (id_sensor id_micro id_linea id_fabrica : string)
    (fecha_inicial : datetime) (rnd : azar) : resultado (list dict) :=
  bucle (Z.to_nat num_registros) id_sensor id_micro id_linea id_fabrica rnd
    fecha_inicial 0 [].

(** ** Insertion into PostgreSQL *)

(** What the script does to the outside: driver calls and console lines.
    A line that prints a Python list keeps the list.  [ExecuteValues] is the
    call of [execute_values]; [Sentencia] is one statement that the call
    sends with [cursor.execute]: the [INSERT] with the tuples of one page in
    the place of [%s]. *)
Inductive evento : Type :=
| Connect
| Cursor
| Execute (sql : string)
| Fetchall
| Print (texto : string)
| PrintLista (etiqueta : string) (ids : list string)
| ToExcel (archivo : string) (filas : list dict)
| ExecuteValues (sql : string) (values : list (list valor))
| Sentencia (sql : string) (pagina : list (list valor))
| Commit
| CursorClose
| ConnClose.

(** How the database answers: [None] is success, an exception is raised
    otherwise.  A reference query returns the column of identifiers;
    [al_insertar] is the outcome of one statement of the bulk insert: of
    composing it from the tuples of its page and of executing it. *)
Record mundo : Type := {
  al_conectar : option excepcion;
  al_consultar : string -> resultado (list string);
  al_insertar : string -> list (list valor) -> option excepcion;
  al_confirmar : option excepcion
}.

(** A computation with its trace of events. *)
Definition accion (A : Type) : Type := (list evento * resultado A)%type.

Definition ret {A : Type} (a : A) : accion A := ([], inr a).

Definition raise {A : Type} (e : excepcion) : accion A := ([], inl e).

Definition emit (ev : evento) : accion unit := ([ev], inr tt).

Definition bind_accion {A B : Type} (m : accion A) (f : A -> accion B)
  : accion B :=
  match m with
  | (t, inl e) => (t, inl e)
  | (t, inr a) => let '(t', r) := f a in ((t ++ t')%list, r)
  end.

Notation "x <~ m ;; k" := (bind_accion m (fun x => k))
  (at level 61, m at next level, right associativity).
Notation "m ;;; k" := (bind_accion m (fun _ => k))
  (at level 61, right associativity).

(** [try: body except Exception as e: handler(e)]. *)
Definition try_except {A : Type} (body : accion A)
    (handler : excepcion -> accion A) : accion A :=
  match body with
  | (t, inl e) => let '(t', r) := handler e in ((t ++ t')%list, r)
  | (t, inr a) => (t, inr a)
  end.

Definition lift {A : Type} (r : resultado A) : accion A := ([], r).

Definition print (texto : string) : accion unit := emit (Print texto).

(** An effect of the driver that may raise after being issued. *)
Definition driver (ev : evento) (r : option excepcion) : accion unit :=
  emit ev ;;;
  match r with
  | Some e => raise e
  | None => ret tt
  end.

(** [cursor.execute(sql)] then [[s[0] for s in cursor.fetchall()]]. *)
Definition consultar (w : mundo) (sql : string) : accion (list string) :=
  emit (Execute sql) ;;;
  ids <~ lift (al_consultar w sql) ;;
  emit Fetchall ;;;
  ret ids.

(** [l[0]]. *)
Definition primero (l : list string) : resultado string :=
  match l with
  | [] => inl IndexError
  | x :: _ => inr x
  end.

(** [l[0] if l else 'NINGUNO']. *)
Definition primero_o_ninguno (l : list string) : resultado string :=
  match l with
  | _ :: _ => primero l
  | [] => inr "NINGUNO"
  end.

(** [id in l]. *)
Definition contiene (l : list string) (id : string) : bool :=
  existsb (String.eqb id) l.

Definition texto_advertencia (id tabla alternativa : string) : string :=
  "ADVERTENCIA: " ++ id ++ " no existe en la tabla " ++ tabla
  ++ ". Usando el primero disponible: " ++ alternativa.

(** [if ID not in ids: print(f"ADVERTENCIA: ...")]. *)
Definition advertir (id tabla : string) (ids : list string) : accion unit :=
  if negb (contiene ids id) then
    alternativa <~ lift (primero_o_ninguno ids) ;;
    print (texto_advertencia id tabla alternativa)
  else ret tt.

Definition SQL_SENSOR : string :=
  "SELECT id_sensor FROM monitoreo_produccion.sensor LIMIT 10;".
Definition SQL_MICRO : string :=
  "SELECT id_micro FROM monitoreo_produccion.microcontrolador LIMIT 10;".
Definition SQL_LINEA : string :=
  "SELECT id_linea FROM monitoreo_produccion.linea LIMIT 10;".
Definition SQL_FABRICA : string :=
  "SELECT id_fabrica FROM monitoreo_produccion.fabrica LIMIT 10;".

(** The body of the [try] block. *)
Definition validar (cfg : config) (w : mundo) : accion unit :=
  sensores <~ consultar w SQL_SENSOR ;;
  emit (PrintLista "Sensores disponibles: " sensores) ;;;
  micros <~ consultar w SQL_MICRO ;;
  emit (PrintLista "Microcontroladores disponibles: " micros) ;;;
  lineas <~ consultar w SQL_LINEA ;;
  emit (PrintLista "Líneas disponibles: " lineas) ;;;
  fabricas <~ consultar w SQL_FABRICA ;;
  emit (PrintLista "Fábricas disponibles: " fabricas) ;;;
  print "" ;;;
  advertir (ID_SENSOR cfg) "sensor" sensores ;;;
  advertir (ID_MICRO cfg) "microcontrolador" micros ;;;
  advertir (ID_LINEA cfg) "linea" lineas ;;;
  advertir (ID_FABRICA cfg) "fabrica" fabricas ;;;
  print "".

(** The [except Exception as e] block. *)
Definition al_fallar_validacion (e : excepcion) : accion unit :=
  print ("Error al consultar tablas relacionadas: " ++ str_excepcion e) ;;;
  print ("Continuando con la inserción..." ++ PyStr.newline).

(** The columns named by the [INSERT], in its order; [id_lectura] is serial
    and is not among them. *)
Definition columnas_insert : list string :=
  [ "fecha"; "hora"; "id_sensor"; "id_micro"; "id_linea"; "id_fabrica";
    "ppm_benceno"; "id_clasificacion"; "geo_latitud"; "geo_longitud";
    "geo_altitud"; "temperatura"; "humedad"; "estado_transmision";
    "timestamp_envio"; "observaciones"; "hash_integridad"; "origen_formato" ].

(** The statement, its layout put on one line. *)
Definition insert_query : string :=
  "INSERT INTO monitoreo_produccion.lecturas ("
  ++ String.concat ", " columnas_insert ++ ") VALUES %s".

(** The tuple built from a row. *)
Definition tupla (r : dict) : resultado (list valor) :=
  v1 <- subscript r "fecha" ;;
  v2 <- subscript r "hora" ;;
  v3 <- subscript r "id_sensor" ;;
  v4 <- subscript r "id_micro" ;;
  v5 <- subscript r "id_linea" ;;
  v6 <- subscript r "id_fabrica" ;;
  v7 <- subscript r "ppm_benceno" ;;
  v8 <- subscript r "id_clasificacion" ;;
  v9 <- subscript r "geo_latitud" ;;
  v10 <- subscript r "geo_longitud" ;;
  v11 <- subscript r "geo_altitud" ;;
  v12 <- subscript r "temperatura" ;;
  v13 <- subscript r "humedad" ;;
  v14 <- subscript r "estado_transmision" ;;
  v15 <- subscript r "timestamp_envio" ;;
  v16 <- subscript r "observaciones" ;;
  v17 <- subscript r "hash_integridad" ;;
  v18 <- subscript r "origen_formato" ;;
  inr [v1; v2; v3; v4; v5; v6; v7; v8; v9; v10; v11; v12; v13; v14; v15; v16;
       v17; v18].

(** [[(r["fecha"], ...) for r in registros]]. *)
Fixpoint tuplas (registros : list dict) : resultado (list (list valor)) :=
  match registros with
  | [] => inr []
  | r :: rs =>
      t <- tupla r ;;
      ts <- tuplas rs ;;
      inr (t :: ts)
  end.

(** [psycopg2.extras._paginate]: the items by pages of [page_size], the
    last page with what is left; no page for an empty sequence. *)
Fixpoint paginas {A : Type} (fuel page_size : nat) (seq : list A)
  : list (list A) :=
  match fuel, seq with
  | S fuel', _ :: _ =>
      firstn page_size seq :: paginas fuel' page_size (skipn page_size seq)
  | _, _ => []
  end.

Definition paginate {A : Type} (seq : list A) (page_size : nat)
  : list (list A) :=
  paginas (List.length seq) page_size seq.

(** The default [page_size] of [execute_values]. *)
Definition PAGE_SIZE : nat := 100.

(** The loop of [execute_values]: one [cursor.execute] per page. *)
Fixpoint ejecutar_paginas (w : mundo) (sql : string)
    (pages : list (list (list valor))) : accion unit :=
  match pages with
  | [] => ret tt
  | page :: rest =>
      driver (Sentencia sql page) (al_insertar w sql page) ;;;
      ejecutar_paginas w sql rest
  end.

(** [psycopg2.extras.execute_values(cursor, sql, argslist)]. *)
Definition execute_values (w : mundo) (sql : string)
    (argslist : list (list valor)) : accion unit :=
  emit (ExecuteValues sql argslist) ;;;
  ejecutar_paginas w sql (paginate argslist PAGE_SIZE).

Definition texto_insertados (n : nat) : string :=
  "Se insertaron " ++ PyStr.decimal (Z.of_nat n)
  ++ " registros en monitoreo_produccion.lecturas".

Definition insertar_en_postgres (cfg : config) (w : mundo)
    (registros : list dict) : accion unit :=
  driver Connect (al_conectar w) ;;;
  emit Cursor ;;;
  try_except (validar cfg w) al_fallar_validacion ;;;
  values <~ lift (tuplas registros) ;;
  execute_values w insert_query values ;;;
  driver Commit (al_confirmar w) ;;;
  emit CursorClose ;;;
  emit ConnClose ;;;
  print (texto_insertados (List.length registros)).

(** ** The script: generate, export, insert *)



(** ** Vocabulary of the statements *)

(** Text made of ASCII characters only. *)
Fixpoint solo_ascii (s : string) : bool :=
  match s with
  | EmptyString => true
  | String c rest => (PyStr.byte c <? 128)%N && solo_ascii rest
  end.


(** Month and day of the [r]-th day (from 0) of a year, as [ord2ymd] finds
    them, checked against [days_before_month]. *)
Definition month_day_check (leap : bool) (r : Z) : bool :=
  let m := Z.shiftr (r + 50) 5 in
  let preceding := DAYS_BEFORE_MONTH m + (if (2 <? m) && leap then 1 else 0) in
  let '(m', d') :=
    if r <? preceding
    then (m - 1, r - (preceding - (DAYS_IN_MONTH (m - 1)
                                   + (if (m - 1 =? 2) && leap then 1 else 0))) + 1)
    else (m, r - preceding + 1) in
  (DAYS_BEFORE_MONTH m' + (if (2 <? m') && leap then 1 else 0) + d' =? r + 1)
  && (1 <=? m') && (m' <=? 12) && (1 <=? d')
  && (d' <=? (if (m' =? 2) && leap then 29 else DAYS_IN_MONTH m')).

(** The month and day that [ord2ymd] returns exist in the calendar. *)
Definition valid_month_day (d : date) : bool :=
  (1 <=? month d) && (month d <=? 12) && (1 <=? day d)
  && (day d <=? days_in_month (year d) (month d)).

(** Dates compare as the tuples [(year, month, day)]. *)
Definition date_lt (d1 d2 : date) : Prop :=
  year d1 < year d2 \/
  (year d1 = year d2 /\
   (month d1 < month d2 \/ (month d1 = month d2 /\ day d1 < day d2))).

(** The concentration drawn at the [k]-th value of the random source. *)
Definition ppm_simulado (rnd : azar) (k : nat) : float :=
  PyFloat.round (PyFloat.uniform 0 80 (rnd k)) 2.

(** [row] is the reading taken at [instante] by the given equipment from the
    draws that start at [k]. *)
Definition es_lectura (row : dict) (id_sensor id_micro id_linea id_fabrica : string)
    (instante : datetime) (rnd : azar) (k : nat) : Prop :=
  keys row = columnas_insert /\
  dict_get "fecha" row = Some (VDate (dt_date instante)) /\
  dict_get "hora" row = Some (VTime (dt_time instante)) /\
  dict_get "id_sensor" row = Some (VStr id_sensor) /\
  dict_get "id_micro" row = Some (VStr id_micro) /\
  dict_get "id_linea" row = Some (VStr id_linea) /\
  dict_get "id_fabrica" row = Some (VStr id_fabrica) /\
  dict_get "ppm_benceno" row = Some (VFloat (ppm_simulado rnd k)) /\
  dict_get "id_clasificacion" row
    = Some (VInt (clasificar_ppm (ppm_simulado rnd k))) /\
  dict_get "timestamp_envio" row = Some (VDatetime instante) /\
  generar_hash_integridad row
    = inr (Md5.hexdigest
             (base_str (VDate (dt_date instante)) (VTime (dt_time instante))
                (VStr id_sensor) (VFloat (ppm_simulado rnd k)))) /\
  dict_get "hash_integridad" row
    = Some (VStr (Md5.hexdigest
             (base_str (VDate (dt_date instante)) (VTime (dt_time instante))
                (VStr id_sensor) (VFloat (ppm_simulado rnd k))))).

(** Times compare as the tuples [(hour, minute, second, microsecond)], and
    a [datetime] as its date followed by its time. *)
Definition time_lt (t1 t2 : time) : Prop :=
  hour t1 < hour t2 \/
  (hour t1 = hour t2 /\
   (minute t1 < minute t2 \/
    (minute t1 = minute t2 /\
     (second t1 < second t2 \/
      (second t1 = second t2 /\ microsecond t1 < microsecond t2))))).

Definition datetime_lt (dt1 dt2 : datetime) : Prop :=
  date_lt (dt_date dt1) (dt_date dt2) \/
  (dt_date dt1 = dt_date dt2 /\ time_lt (dt_time dt1) (dt_time dt2)).

(** A value from 0 to 80: a zero, or [m * 2^e] with [m <= 5 * 2^(4 - e)]. *)
Definition SF_in_0_80 (x : spec_float) : Prop :=
  match x with
  | S754_zero _ => True
  | S754_finite false m e => e <= 4 /\ Zpos m <= 5 * 2 ^ (4 - e)
  | _ => False
  end.

(** The same without the negative zero. *)
Definition SF_pos_0_80 (x : spec_float) : Prop :=
  match x with
  | S754_zero false => True
  | S754_finite false m e => e <= 4 /\ Zpos m <= 5 * 2 ^ (4 - e)
  | _ => False
  end.

(** The float nearest to [d] hundredths. *)
Definition centesimas (d : Z) : spec_float :=
  match d with
  | Zpos p => PyFloat.nearest_binary64 false p 100
  | _ => S754_zero false
  end.

Definition centesimas_check (d : Z) : bool :=
  valid_binary (centesimas d)
  && SFleb (S754_zero false) (centesimas d)
  && SFleb (centesimas d) (S754_finite false 5629499534213120 (-46)).

(** Events of the validation step: reference queries and console lines. *)
Definition es_validacion (ev : evento) : bool :=
  match ev with
  | Execute _ | Fetchall | Print _ | PrintLista _ _ => true
  | _ => false
  end.

(** The alternative a warning names. *)
Definition alternativa (ids : list string) : string :=
  match ids with
  | [] => "NINGUNO"
  | x :: _ => x
  end.

(** The warning lines of one identifier. *)
Definition avisos (id tabla : string) (ids : list string) : list evento :=
  if contiene ids id then []
  else [Print (texto_advertencia id tabla (alternativa ids))].

(** The exception of the first reference query that fails, if any. *)
Definition primera_falla (w : mundo) : option excepcion :=
  match al_consultar w SQL_SENSOR with
  | inl e => Some e
  | inr _ =>
      match al_consultar w SQL_MICRO with
      | inl e => Some e
      | inr _ =>
          match al_consultar w SQL_LINEA with
          | inl e => Some e
          | inr _ =>
              match al_consultar w SQL_FABRICA with
              | inl e => Some e
              | inr _ => None
              end
          end
      end
  end.

(** What follows the validation step: the bulk insert, the commit and the
    closing of the cursor and of the connection, up to the first failure. *)
Definition tras_validacion (w : mundo) (values : list (list valor)) (n : nat)
  : accion unit :=
  execute_values w insert_query values ;;;
  driver Commit (al_confirmar w) ;;;
  emit CursorClose ;;;
  emit ConnClose ;;;
  print (texto_insertados n).

(** The statements of the bulk insert. *)
Definition es_sentencia (ev : evento) : bool :=
  match ev with
  | Sentencia _ _ => true
  | _ => false
  end.

(** Driver calls that are not part of the validation step. *)
Definition llamadas (traza : list evento) : list evento :=
  filter (fun ev => negb (es_validacion ev)) traza.


(** ** Runs used as examples *)

(** A source of draws used to run the definitions. *)
Definition azar_ejemplo : azar :=
  fun k => nth k [0.1543; 0.5; 0.25; 0.75; 0.3; 0.9; 0.999; 0.1; 0.2; 0.3;
                  0.4; 0.5]%float 0.5%float.

(** The two readings of a run from the starting instant of the script. *)
Definition lecturas_ejemplo : list dict :=
  match generar_registros_simulados 2 "A1S01" "A1M01" "A1" "A"
          (FECHA_INICIAL config_script) azar_ejemplo with
  | inr registros => registros
  | inl _ => []
  end.

(** The first reading of the example run. *)
Definition lectura_ejemplo : dict := nth 0 lecturas_ejemplo [].

(** A database whose sensor table is empty and whose line table lacks the
    configured line, and one whose reference tables do not exist. *)
Definition mundo_ejemplo : mundo := {|
  al_conectar := None;
  al_consultar := fun sql =>
    if String.eqb sql SQL_SENSOR then inr []
    else if String.eqb sql SQL_MICRO then inr ["A1M01"; "A1M02"]
    else if String.eqb sql SQL_LINEA then inr ["B1"; "B2"]
    else inr ["A"];
  al_insertar := fun _ _ => None;
  al_confirmar := None
|}.

Definition mundo_sin_tablas : mundo := {|
  al_conectar := None;
  al_consultar := fun _ => inl (DatabaseError "relation does not exist");
  al_insertar := fun _ _ => None;
  al_confirmar := None
|}.

Definition config_ejemplo : config := {|
  ID_SENSOR := "A1S01";
  ID_MICRO := "A1M01";
  ID_LINEA := "A1";
  ID_FABRICA := "A";
  NUM_REGISTROS := 2;
  FECHA_INICIAL := FECHA_INICIAL config_script
|}.

(** The tuples of the example run. *)
Definition tuplas_ejemplo : list (list valor) :=
  match tuplas lecturas_ejemplo with
  | inr values => values
  | inl _ => []
  end.






(** * Properties *)

(** ** The calendar *)

Lemma forallb_range (P : Z -> bool) (n : nat) :
  forallb P (map Z.of_nat (seq 0 n)) = true ->
  forall z, 0 <= z < Z.of_nat n -> P z = true.
Proof.
  intros H z Hz. rewrite forallb_forall in H. apply H.
  apply in_map_iff. exists (Z.to_nat z). split; [lia|].
  apply in_seq. lia.
Qed.

Lemma month_day_ok (leap : bool) (r : Z) :
  0 <= r < (if leap then 366 else 365) -> month_day_check leap r = true.
Proof.
  intros Hr. destruct leap.
  - apply (forallb_range (month_day_check true) 366); [now vm_compute | lia].
  - apply (forallb_range (month_day_check false) 365); [now vm_compute | lia].
Qed.

(** [ord2ymd] inverts [ymd2ord] and returns a date of the calendar. *)
Lemma ord2ymd_spec (n : Z) :
  1 <= n ->
  toordinal (ord2ymd n) = n /\ valid_month_day (ord2ymd n) = true
  /\ 1 <= year (ord2ymd n).
Proof.
  intros Hn. unfold toordinal, valid_month_day, ord2ymd.
  set (a := n - 1).
  set (n400 := a / DI400Y). set (r400 := a mod DI400Y).
  set (n100 := r400 / DI100Y). set (r100 := r400 mod DI100Y).
  set (n4 := r100 / DI4Y). set (r4 := r100 mod DI4Y).
  set (n1 := r4 / 365). set (r1 := r4 mod 365).
  assert (Ha : a = 146097 * n400 + r400 /\ 0 <= r400 < 146097 /\ 0 <= n400).
  { unfold n400, r400, DI400Y, a. pose proof (Z.div_mod (n-1) 146097).
    pose proof (Z.mod_pos_bound (n-1) 146097).
    pose proof (Z.div_pos (n-1) 146097). lia. }
  assert (Hb : r400 = 36524 * n100 + r100 /\ 0 <= r100 < 36524 /\ 0 <= n100 <= 4).
  { unfold n100, r100, DI100Y. pose proof (Z.div_mod r400 36524).
    pose proof (Z.mod_pos_bound r400 36524). lia. }
  assert (Hc : r100 = 1461 * n4 + r4 /\ 0 <= r4 < 1461 /\ 0 <= n4 <= 24).
  { unfold n4, r4, DI4Y. pose proof (Z.div_mod r100 1461).
    pose proof (Z.mod_pos_bound r100 1461). lia. }
  assert (Hd : r4 = 365 * n1 + r1 /\ 0 <= r1 < 365 /\ 0 <= n1 <= 4).
  { unfold n1, r1. pose proof (Z.div_mod r4 365).
    pose proof (Z.mod_pos_bound r4 365). lia. }
  assert (Hn' : n = a + 1) by (unfold a; lia).
  clearbody n400 r400 n100 r100 n4 r4 n1 r1 a. clear Hn.
  cbv zeta.
  destruct ((n1 =? 4) || (n100 =? 4)) eqn:Hlast.
  - cbn [year month day]. apply orb_true_iff in Hlast. rewrite !Z.eqb_eq in Hlast.
    split; [|split; [reflexivity | lia]].
    unfold ymd2ord, days_before_month, days_before_year, is_leap.
    change (DAYS_BEFORE_MONTH 12) with 334. change (2 <? 12) with true.
    repeat match goal with
           | |- context [?x =? ?y] => destruct (Z.eqb_spec x y)
           end; cbn [andb orb negb]; Z.div_mod_to_equations; lia.
  - apply orb_false_iff in Hlast. rewrite !Z.eqb_neq in Hlast.
    set (y := n400 * 400 + 1 + n100 * 100 + n4 * 4 + n1).
    set (leapyear := (n1 =? 3) && (negb (n4 =? 24) || (n100 =? 3))).
    assert (Hleap : is_leap y = leapyear).
    { unfold is_leap, leapyear, y.
      repeat match goal with
             | |- context [?x =? ?y] => destruct (Z.eqb_spec x y)
             end; cbn [andb orb negb]; try reflexivity; Z.div_mod_to_equations; lia. }
    assert (Hdby : days_before_year y = a - r1).
    { unfold days_before_year, y. Z.div_mod_to_equations; lia. }
    assert (Hr1 : leapyear = false -> r1 <= 364).
    { unfold leapyear.
      repeat match goal with
             | |- context [?x =? ?y] => destruct (Z.eqb_spec x y)
             end; cbn [andb orb negb]; try discriminate; lia. }
    assert (Hy : 1 <= y) by (unfold y; lia).
    clearbody y leapyear.
    pose proof (month_day_ok leapyear r1) as Hmd.
    unfold month_day_check in Hmd. cbv zeta in Hmd.
    assert (Hrange : 0 <= r1 < (if leapyear then 366 else 365)).
    { destruct leapyear; [lia | specialize (Hr1 eq_refl); lia]. }
    specialize (Hmd Hrange).
    unfold ymd2ord, days_before_month, days_in_month.
    destruct (r1 <? _); cbn [year month day]; rewrite Hleap, Hdby;
      rewrite !andb_true_iff in Hmd;
      destruct Hmd as [[[[Hmd Hm1] Hm2] Hd1] Hd2];
      rewrite Hm1, Hm2, Hd1, Hd2; apply Z.eqb_eq in Hmd;
      (split; [lia | split; [reflexivity | exact Hy]]).
Qed.

Lemma toordinal_fromordinal (n : Z) : 1 <= n -> toordinal (fromordinal n) = n.
Proof. intros Hn. apply (ord2ymd_spec n Hn). Qed.

Lemma days_before_year_succ (y : Z) :
  days_before_year (y + 1)
  = days_before_year y + 365 + (if is_leap y then 1 else 0).
Proof.
  unfold days_before_year, is_leap.
  repeat match goal with
         | |- context [?x =? ?y] => destruct (Z.eqb_spec x y)
         end; cbn [andb orb negb]; Z.div_mod_to_equations; lia.
Qed.

Lemma days_before_year_mono (y y' : Z) :
  y <= y' -> days_before_year y <= days_before_year y'.
Proof. unfold days_before_year. intros H. Z.div_mod_to_equations. lia. Qed.

Lemma month_cases (m : Z) :
  1 <= m <= 12 ->
  m = 1 \/ m = 2 \/ m = 3 \/ m = 4 \/ m = 5 \/ m = 6 \/
  m = 7 \/ m = 8 \/ m = 9 \/ m = 10 \/ m = 11 \/ m = 12.
Proof. lia. Qed.

Lemma valid_month_day_spec (d : date) :
  valid_month_day d = true ->
  1 <= month d <= 12 /\ 1 <= day d <= days_in_month (year d) (month d).
Proof. unfold valid_month_day. rewrite !andb_true_iff, !Z.leb_le. lia. Qed.

(** Case analysis on a month of the calendar. *)
Ltac por_mes m Hm :=
  let H := fresh "Hmes" in
  pose proof (month_cases m Hm) as H;
  repeat (destruct H as [H | H]; [subst m|]); try subst m.

(** The day of the year lies in the year. *)
Lemma day_of_year_bounds (y m d : Z) :
  1 <= m <= 12 -> 1 <= d <= days_in_month y m ->
  1 <= days_before_month y m + d <= 365 + (if is_leap y then 1 else 0).
Proof.
  intros Hm. unfold days_in_month, days_before_month.
  destruct (is_leap y);
    por_mes m Hm;
    cbv -[Z.add Z.le Z.lt]; lia.
Qed.

Lemma days_before_month_lt (y m1 d1 m2 d2 : Z) :
  1 <= m1 <= 12 -> 1 <= d1 <= days_in_month y m1 ->
  1 <= m2 <= 12 -> 1 <= d2 <= days_in_month y m2 ->
  m1 < m2 ->
  days_before_month y m1 + d1 < days_before_month y m2 + d2.
Proof.
  intros Hm1 Hd1 Hm2 Hd2 Hlt. revert Hd1 Hd2.
  unfold days_in_month, days_before_month.
  destruct (is_leap y);
    por_mes m1 Hm1;
    por_mes m2 Hm2;
    try lia; cbv -[Z.add Z.le Z.lt]; lia.
Qed.

(** [toordinal] is increasing on dates of the calendar. *)
Lemma toordinal_lt (d1 d2 : date) :
  valid_month_day d1 = true -> valid_month_day d2 = true ->
  date_lt d1 d2 -> toordinal d1 < toordinal d2.
Proof.
  intros H1 H2 Hlt.
  apply valid_month_day_spec in H1 as [Hm1 Hd1].
  apply valid_month_day_spec in H2 as [Hm2 Hd2].
  unfold toordinal, ymd2ord.
  destruct Hlt as [Hy | [Hy [Hm | [Hm Hd]]]].
  - pose proof (day_of_year_bounds _ _ _ Hm1 Hd1).
    pose proof (day_of_year_bounds _ _ _ Hm2 Hd2).
    pose proof (days_before_year_succ (year d1)).
    pose proof (days_before_year_mono (year d1 + 1) (year d2) ltac:(lia)).
    lia.
  - rewrite Hy in *.
    pose proof (days_before_month_lt _ _ _ _ _ Hm1 Hd1 Hm2 Hd2 Hm). lia.
  - rewrite Hy, Hm in *. lia.
Qed.

Lemma date_trichotomy (d1 d2 : date) :
  date_lt d1 d2 \/ d1 = d2 \/ date_lt d2 d1.
Proof.
  destruct d1 as [y1 m1 a1], d2 as [y2 m2 a2]. unfold date_lt. simpl.
  destruct (Z.lt_trichotomy y1 y2) as [?|[->|?]]; try tauto.
  destruct (Z.lt_trichotomy m1 m2) as [?|[->|?]]; try tauto.
  destruct (Z.lt_trichotomy a1 a2) as [?|[->|?]]; tauto.
Qed.

Lemma toordinal_inj (d1 d2 : date) :
  valid_month_day d1 = true -> valid_month_day d2 = true ->
  toordinal d1 = toordinal d2 -> d1 = d2.
Proof.
  intros H1 H2 Heq.
  destruct (date_trichotomy d1 d2) as [Hlt | [? | Hlt]]; [|assumption|].
  - pose proof (toordinal_lt _ _ H1 H2 Hlt). lia.
  - pose proof (toordinal_lt _ _ H2 H1 Hlt). lia.
Qed.

Lemma toordinal_lt_iff (d1 d2 : date) :
  valid_month_day d1 = true -> valid_month_day d2 = true ->
  (toordinal d1 < toordinal d2 <-> date_lt d1 d2).
Proof.
  intros H1 H2. split; [|apply toordinal_lt; assumption].
  intros Hlt. destruct (date_trichotomy d1 d2) as [? | [-> | Hgt]]; [assumption|lia|].
  pose proof (toordinal_lt _ _ H2 H1 Hgt). lia.
Qed.

Lemma toordinal_pos (d : date) :
  1 <= year d -> valid_month_day d = true -> 1 <= toordinal d.
Proof.
  intros Hy Hv. apply valid_month_day_spec in Hv as [Hm Hd].
  pose proof (day_of_year_bounds _ _ _ Hm Hd).
  pose proof (days_before_year_mono 1 (year d) Hy).
  unfold toordinal, ymd2ord. change (days_before_year 1) with 0 in *. lia.
Qed.

Lemma valid_date_month_day (d : date) :
  valid_date d = true -> valid_month_day d = true /\ 1 <= year d.
Proof.
  unfold valid_date, valid_month_day. rewrite !andb_true_iff, !Z.leb_le.
  intuition lia.
Qed.

Lemma fromordinal_toordinal (d : date) :
  valid_date d = true -> fromordinal (toordinal d) = d.
Proof.
  intros Hv. apply valid_date_month_day in Hv as [Hmd Hy].
  pose proof (toordinal_pos d Hy Hmd) as Hpos.
  destruct (ord2ymd_spec (toordinal d) Hpos) as (Hrt & Hmd' & _).
  apply toordinal_inj; assumption.
Qed.

(** ** Adding seconds to a [datetime] *)

Lemma seconds_of_day_mkTime (secs us : Z) :
  0 <= secs < 86400 ->
  seconds_of_day (mkTime (secs / 3600) (secs mod 3600 / 60)
                    (secs mod 3600 mod 60) us) = secs.
Proof.
  intros H. unfold seconds_of_day. cbn [hour minute second].
  Z.div_mod_to_equations. lia.
Qed.

Lemma add_seconds_Some (dt dt' : datetime) (n : Z) :
  add_seconds dt n = Some dt' ->
  let total := seconds_of_day (dt_time dt) + n in
  let days := toordinal (dt_date dt) + total / 86400 in
  1 <= days <= MAXORDINAL /\
  toordinal (dt_date dt') = days /\
  seconds_of_day (dt_time dt') = total mod 86400 /\
  microsecond (dt_time dt') = microsecond (dt_time dt) /\
  dt' = mkDatetime (fromordinal days)
          (mkTime (total mod 86400 / 3600) (total mod 86400 mod 3600 / 60)
             (total mod 86400 mod 3600 mod 60) (microsecond (dt_time dt))).
Proof.
  unfold add_seconds. cbv zeta.
  set (total := seconds_of_day (dt_time dt) + n).
  set (days := toordinal (dt_date dt) + total / 86400).
  destruct ((0 <? days) && (days <=? MAXORDINAL)) eqn:Hr; [|discriminate].
  apply andb_true_iff in Hr as [H0 H1].
  apply Z.ltb_lt in H0. apply Z.leb_le in H1.
  intros [= <-]. cbn [dt_date dt_time microsecond].
  rewrite toordinal_fromordinal by lia.
  rewrite seconds_of_day_mkTime by (apply Z.mod_pos_bound; lia).
  repeat split; lia.
Qed.

Lemma add_seconds_None (dt : datetime) (n : Z) :
  add_seconds dt n = None <->
  ~ (1 <= toordinal (dt_date dt) + (seconds_of_day (dt_time dt) + n) / 86400
       <= MAXORDINAL).
Proof.
  unfold add_seconds. cbv zeta.
  set (days := toordinal (dt_date dt) + _ / 86400).
  destruct (Z.ltb_spec 0 days), (Z.leb_spec days MAXORDINAL); cbn [andb];
    split; intros; try discriminate; try reflexivity; lia.
Qed.

(** Two additions amount to one. *)
Lemma add_seconds_add (dt dt1 : datetime) (a b : Z) :
  add_seconds dt a = Some dt1 ->
  add_seconds dt1 b = add_seconds dt (a + b).
Proof.
  intros H. apply add_seconds_Some in H. cbv zeta in H.
  destruct H as (_ & Hord & Hsec & Hus & _).
  unfold add_seconds. cbv zeta. rewrite Hord, Hsec, Hus.
  set (t := seconds_of_day (dt_time dt)).
  assert (E1 : toordinal (dt_date dt) + (t + a) / 86400
               + ((t + a) mod 86400 + b) / 86400
               = toordinal (dt_date dt) + (t + (a + b)) / 86400)
    by (Z.div_mod_to_equations; lia).
  assert (E2 : ((t + a) mod 86400 + b) mod 86400 = (t + (a + b)) mod 86400)
    by (Z.div_mod_to_equations; lia).
  rewrite E1, E2. reflexivity.
Qed.

Lemma timestamp_add_seconds (dt dt' : datetime) (n : Z) :
  add_seconds dt n = Some dt' -> timestamp dt' = timestamp dt + n.
Proof.
  intros H. apply add_seconds_Some in H. cbv zeta in H.
  destruct H as (_ & Hord & Hsec & _).
  unfold timestamp. rewrite Hord, Hsec. Z.div_mod_to_equations. lia.
Qed.

Lemma valid_time_seconds (t : time) :
  valid_time t = true ->
  0 <= seconds_of_day t < 86400 /\
  mkTime (seconds_of_day t / 3600) (seconds_of_day t mod 3600 / 60)
    (seconds_of_day t mod 3600 mod 60) (microsecond t) = t.
Proof.
  unfold valid_time, seconds_of_day. destruct t as [h m s us].
  cbn [hour minute second microsecond].
  rewrite !andb_true_iff, !Z.leb_le, !Z.ltb_lt. intros H.
  split; [lia|]. f_equal; Z.div_mod_to_equations; lia.
Qed.

Lemma valid_date_toordinal (d : date) :
  valid_date d = true -> 1 <= toordinal d <= MAXORDINAL.
Proof.
  intros Hv. pose proof Hv as Hv'.
  apply valid_date_month_day in Hv as [Hmd Hy].
  split; [apply toordinal_pos; assumption|].
  unfold valid_date in Hv'. rewrite !andb_true_iff, !Z.leb_le in Hv'.
  apply valid_month_day_spec in Hmd as [Hm Hd].
  pose proof (day_of_year_bounds _ _ _ Hm Hd).
  pose proof (days_before_year_succ (year d)).
  pose proof (days_before_year_mono (year d + 1) 10000 ltac:(unfold MAXYEAR in *; lia)).
  assert (E : days_before_year 10000 = MAXORDINAL) by reflexivity.
  unfold toordinal, ymd2ord. lia.
Qed.

(** Adding nothing to a well-formed [datetime] returns it. *)
Lemma add_seconds_0 (dt : datetime) :
  valid_datetime dt = true -> add_seconds dt 0 = Some dt.
Proof.
  unfold valid_datetime. rewrite andb_true_iff. intros [Hd Ht].
  pose proof (valid_date_toordinal _ Hd) as Hord.
  pose proof (valid_time_seconds _ Ht) as [Hsec Hrec].
  unfold add_seconds. cbv zeta. rewrite Z.add_0_r.
  rewrite Z.div_small, Z.mod_small, Z.add_0_r by lia.
  rewrite Hrec, fromordinal_toordinal by assumption.
  destruct (Z.ltb_spec 0 (toordinal (dt_date dt))); [|lia].
  destruct (Z.leb_spec (toordinal (dt_date dt)) MAXORDINAL); [|lia].
  destruct dt; reflexivity.
Qed.

(** A sum that is in range leaves every smaller sum in range. *)
Lemma add_seconds_below (dt : datetime) (a b : Z) :
  valid_datetime dt = true -> 0 <= a <= b ->
  add_seconds dt b <> None -> add_seconds dt a <> None.
Proof.
  unfold valid_datetime. rewrite andb_true_iff. intros [Hd Ht] Hab Hb Ha.
  pose proof (valid_date_toordinal _ Hd) as Hord.
  pose proof (valid_time_seconds _ Ht) as [Hsec _].
  apply add_seconds_None in Ha. apply Hb. apply add_seconds_None.
  intros Hin. apply Ha. Z.div_mod_to_equations. lia.
Qed.

(** ** Text that UTF-8 encodes *)

Lemma solo_ascii_app (a b : string) :
  solo_ascii (a ++ b) = solo_ascii a && solo_ascii b.
Proof.
  induction a as [|c a IH]; cbn [append solo_ascii]; [reflexivity|].
  rewrite IH. apply andb_assoc.
Qed.

Lemma solo_ascii_zeros (n : nat) : solo_ascii (PyStr.zeros n) = true.
Proof. induction n as [|n IH]; cbn [PyStr.zeros solo_ascii]; auto. Qed.

Lemma solo_ascii_uint (d : Decimal.uint) :
  solo_ascii (NilEmpty.string_of_uint d) = true.
Proof. induction d; cbn [NilEmpty.string_of_uint solo_ascii]; auto. Qed.

Lemma solo_ascii_decimal (n : Z) : solo_ascii (PyStr.decimal n) = true.
Proof. apply solo_ascii_uint. Qed.

Lemma solo_ascii_zfill (w : nat) (n : Z) : solo_ascii (PyStr.zfill w n) = true.
Proof.
  unfold PyStr.zfill. now rewrite solo_ascii_app, solo_ascii_zeros, solo_ascii_decimal.
Qed.

Lemma solo_ascii_substring (s : string) :
  solo_ascii s = true -> forall n m, solo_ascii (substring n m s) = true.
Proof.
  induction s as [|c s IH]; intros Hs n m.
  - destruct n, m; reflexivity.
  - cbn [solo_ascii] in Hs. apply andb_true_iff in Hs as [Hc Hs].
    destruct n as [|n]; [destruct m as [|m]|]; cbn [substring solo_ascii];
      rewrite ?Hc, ?IH; auto.
Qed.

Ltac ascii_por_partes :=
  repeat rewrite solo_ascii_app;
  rewrite ?solo_ascii_zfill, ?solo_ascii_decimal, ?solo_ascii_zeros;
  cbn [solo_ascii andb]; try reflexivity.

Lemma solo_ascii_date (d : date) : solo_ascii (date_isoformat d) = true.
Proof. unfold date_isoformat. ascii_por_partes. Qed.

Lemma solo_ascii_time (t : time) : solo_ascii (time_isoformat t) = true.
Proof.
  unfold time_isoformat. destruct (microsecond t =? 0); ascii_por_partes.
Qed.

Lemma solo_ascii_layout (ds : string) (decpt : Z) :
  solo_ascii ds = true -> solo_ascii (PyFloat.layout ds decpt) = true.
Proof.
  intros Hds. unfold PyFloat.layout, PyFloat.two_digits.
  destruct ((decpt <=? -4) || (16 <? decpt)).
  - assert (Hm : solo_ascii
                   match ds with
                   | String c (String c' rest) =>
                       String c (String "." (String c' rest))
                   | _ => ds
                   end = true).
    { destruct ds as [|c [|c' rest]]; assumption. }
    repeat rewrite solo_ascii_app. rewrite Hm.
    destruct (decpt - 1 <? 0), (Z.abs (decpt - 1) <? 10);
      cbn [solo_ascii andb]; rewrite ?solo_ascii_decimal; reflexivity.
  - destruct (decpt <=? 0); [|destruct (decpt <? _)];
      repeat rewrite solo_ascii_app;
      rewrite ?solo_ascii_zeros, ?Hds, ?solo_ascii_substring by assumption;
      reflexivity.
Qed.

(** [repr] of a float is ASCII text. *)
Lemma solo_ascii_repr (x : float) : solo_ascii (PyFloat.repr x) = true.
Proof.
  unfold PyFloat.repr.
  destruct (Prim2SF x) as [[]|[]| |s m e]; try reflexivity.
  destruct (PyFloat.fraction_of m e) as [num den].
  destruct (PyFloat.shortest_from _ _ _ _ _ _ _) as [D0 k0].
  destruct (PyFloat.strip_zeros _ _ _) as [D k].
  rewrite solo_ascii_app, solo_ascii_layout by apply solo_ascii_decimal.
  destruct s; reflexivity.
Qed.

Lemma surrogate_head_ascii (c : ascii) (s : string) :
  (PyStr.byte c <? 128)%N = true -> PyStr.surrogate_head (String c s) = false.
Proof.
  intros Hc. unfold PyStr.surrogate_head.
  destruct s as [|c2 [|c3 s]]; try reflexivity.
  destruct (N.eqb_spec (PyStr.byte c) 237) as [E|]; [|reflexivity].
  rewrite E in Hc. discriminate.
Qed.

Lemma has_surrogate_ascii (s : string) :
  solo_ascii s = true -> PyStr.has_surrogate s = false.
Proof.
  induction s as [|c s IH]; intros Hs; [reflexivity|].
  cbn [solo_ascii] in Hs. apply andb_true_iff in Hs as [Hc Hs].
  cbn [PyStr.has_surrogate]. now rewrite (surrogate_head_ascii c _ Hc), IH.
Qed.

Lemma has_surrogate_app_ascii_l (p s : string) :
  solo_ascii p = true ->
  PyStr.has_surrogate (p ++ s) = PyStr.has_surrogate s.
Proof.
  induction p as [|c p IH]; intros Hp; [reflexivity|].
  cbn [solo_ascii] in Hp. apply andb_true_iff in Hp as [Hc Hp].
  cbn [append PyStr.has_surrogate].
  now rewrite (surrogate_head_ascii c _ Hc), IH.
Qed.

Lemma surrogate_head_app_ascii (s q : string) :
  solo_ascii q = true ->
  PyStr.surrogate_head (s ++ q) = PyStr.surrogate_head s.
Proof.
  intros Hq.
  assert (Hhead : forall c r, solo_ascii (String c r) = true ->
                              (128 <=? PyStr.byte c)%N = false).
  { intros c r H. cbn [solo_ascii] in H. apply andb_true_iff in H as [H _].
    apply N.ltb_lt in H. apply N.leb_gt. exact H. }
  destruct s as [|c1 [|c2 [|c3 s]]]; cbn [append].
  - destruct q as [|c q]; [reflexivity|].
    apply surrogate_head_ascii. cbn [solo_ascii] in Hq.
    now apply andb_true_iff in Hq as [? _].
  - unfold PyStr.surrogate_head. destruct q as [|c2 [|c3 q]]; try reflexivity.
    assert (H2 : (160 <=? PyStr.byte c2)%N = false).
    { pose proof (Hhead _ _ Hq) as H. apply N.leb_gt in H. apply N.leb_gt. lia. }
    rewrite H2, andb_false_r. reflexivity.
  - unfold PyStr.surrogate_head, PyStr.continuation.
    destruct q as [|c3 q]; [reflexivity|].
    rewrite (Hhead _ _ Hq), !andb_false_r. reflexivity.
  - reflexivity.
Qed.

Lemma has_surrogate_app_ascii_r (s q : string) :
  solo_ascii q = true ->
  PyStr.has_surrogate (s ++ q) = PyStr.has_surrogate s.
Proof.
  intros Hq. induction s as [|c s IH].
  - cbn [append]. now apply has_surrogate_ascii.
  - change (String c s ++ q) with (String c (s ++ q)).
    cbn [PyStr.has_surrogate]. rewrite IH.
    change (String c (s ++ q)) with (String c s ++ q).
    now rewrite surrogate_head_app_ascii.
Qed.

Lemma find_surrogate_has (s : string) :
  forall pos,
    match PyStr.find_surrogate s pos with
    | Some _ => PyStr.has_surrogate s = true
    | None => PyStr.has_surrogate s = false
    end.
Proof.
  induction s as [|c s IH]; intros pos; cbn [PyStr.find_surrogate PyStr.has_surrogate].
  - reflexivity.
  - destruct (PyStr.surrogate_head (String c s)); [reflexivity|].
    cbn [orb]. apply IH.
Qed.

(** Encoding succeeds exactly on text without a surrogate. *)
Lemma encode_utf8_inr (s : string) :
  PyStr.has_surrogate s = false -> encode_utf8 s = inr s.
Proof.
  intros H. unfold encode_utf8. pose proof (find_surrogate_has s 0) as Hf.
  destruct (PyStr.find_surrogate s 0) as [[pos resto]|]; [congruence | reflexivity].
Qed.

Lemma encode_utf8_inl (s : string) :
  PyStr.has_surrogate s = true ->
  exists inicio fin codigo,
    encode_utf8 s = inl (UnicodeEncodeError inicio fin codigo).
Proof.
  intros H. unfold encode_utf8. pose proof (find_surrogate_has s 0) as Hf.
  destruct (PyStr.find_surrogate s 0) as [[pos resto]|]; [|congruence].
  now eexists _, _, _.
Qed.

(** The hashed text holds a surrogate exactly when the sensor identifier
    does. *)
Lemma base_str_surrogate (d : date) (t : time) (s : string) (x : float) :
  PyStr.has_surrogate (base_str (VDate d) (VTime t) (VStr s) (VFloat x))
  = PyStr.has_surrogate s.
Proof.
  unfold base_str. cbn [py_format].
  rewrite (has_surrogate_app_ascii_l _ _ (solo_ascii_date d)).
  rewrite (has_surrogate_app_ascii_l _ _ (solo_ascii_time t)).
  apply has_surrogate_app_ascii_r, solo_ascii_repr.
Qed.

(** ** The generator *)

(** The loop body builds the reading of its instant when the sensor
    identifier can be encoded. *)
Lemma fila_simulada_ok (s m l f : string) (instante : datetime) (rnd : azar)
    (k : nat) :
  PyStr.has_surrogate s = false ->
  exists row, fila_simulada s m l f instante rnd k = inr row
              /\ es_lectura row s m l f instante rnd k.
Proof.
  intros Hs.
  pose proof (encode_utf8_inr _
                (eq_trans (base_str_surrogate (dt_date instante)
                             (dt_time instante) s (ppm_simulado rnd k)) Hs))
    as Henc.
  unfold ppm_simulado in Henc.
  unfold fila_simulada, generar_hash_integridad, subscript.
  cbn [dict_get String.eqb Ascii.eqb Bool.eqb bind].
  rewrite Henc. cbn [bind dict_set String.eqb Ascii.eqb Bool.eqb].
  eexists. split; [reflexivity|].
  unfold es_lectura, generar_hash_integridad, subscript, keys, ppm_simulado.
  cbn [dict_get String.eqb Ascii.eqb Bool.eqb bind map fst].
  rewrite Henc. cbn [bind]. repeat split.
Qed.

(** It raises [UnicodeEncodeError] when the identifier holds a surrogate. *)
Lemma fila_simulada_surrogate (s m l f : string) (instante : datetime)
    (rnd : azar) (k : nat) :
  PyStr.has_surrogate s = true ->
  exists inicio fin codigo,
    fila_simulada s m l f instante rnd k
    = inl (UnicodeEncodeError inicio fin codigo).
Proof.
  intros Hs.
  destruct (encode_utf8_inl _
              (eq_trans (base_str_surrogate (dt_date instante)
                           (dt_time instante) s (ppm_simulado rnd k)) Hs))
    as (i & j & c & Henc).
  unfold ppm_simulado in Henc.
  unfold fila_simulada, generar_hash_integridad, subscript.
  cbn [dict_get String.eqb Ascii.eqb Bool.eqb bind].
  rewrite Henc. cbn [bind]. now exists i, j, c.
Qed.

Lemma fila_simulada_inr (s m l f : string) (instante : datetime) (rnd : azar)
    (k : nat) (row : dict) :
  fila_simulada s m l f instante rnd k = inr row ->
  PyStr.has_surrogate s = false /\ es_lectura row s m l f instante rnd k.
Proof.
  intros Hrow. destruct (PyStr.has_surrogate s) eqn:Hs.
  - destruct (fila_simulada_surrogate s m l f instante rnd k Hs)
      as (i & j & c & E).
    congruence.
  - split; [reflexivity|].
    destruct (fila_simulada_ok s m l f instante rnd k Hs) as (row' & E & Hes).
    congruence.
Qed.

Lemma year_le_MAXYEAR (d : date) :
  valid_month_day d = true -> toordinal d <= MAXORDINAL -> year d <= MAXYEAR.
Proof.
  intros Hmd Hord.
  destruct (Z.le_gt_cases (year d) MAXYEAR) as [|Hgt]; [assumption|].
  exfalso. apply valid_month_day_spec in Hmd as [Hm Hd].
  pose proof (day_of_year_bounds _ _ _ Hm Hd) as Hdoy.
  assert (Hmono : days_before_year 10000 <= days_before_year (year d))
    by (apply days_before_year_mono; unfold MAXYEAR in Hgt; lia).
  assert (E : days_before_year 10000 = MAXORDINAL) by reflexivity.
  unfold toordinal, ymd2ord in Hord. lia.
Qed.

Lemma fromordinal_valid (n : Z) :
  1 <= n <= MAXORDINAL -> valid_date (fromordinal n) = true.
Proof.
  intros Hn. destruct (ord2ymd_spec n ltac:(lia)) as (Hrt & Hmd & Hy).
  fold (fromordinal n) in Hrt, Hmd, Hy.
  pose proof (year_le_MAXYEAR (fromordinal n) Hmd ltac:(lia)) as Hmax.
  unfold valid_month_day in Hmd. rewrite !andb_true_iff in Hmd.
  destruct Hmd as [[[Hm1 Hm2] Hd1] Hd2].
  apply Z.leb_le in Hy, Hmax. unfold valid_date.
  rewrite Hy, Hmax, Hm1, Hm2, Hd1, Hd2. reflexivity.
Qed.

Lemma add_seconds_valid (dt dt' : datetime) (n : Z) :
  valid_datetime dt = true -> add_seconds dt n = Some dt' ->
  valid_datetime dt' = true.
Proof.
  unfold valid_datetime. rewrite andb_true_iff. intros [_ Ht] H.
  apply add_seconds_Some in H. cbv zeta in H.
  destruct H as (Hr & _ & _ & _ & ->). cbn [dt_date dt_time].
  rewrite fromordinal_valid by assumption.
  unfold valid_time in *. cbn [hour minute second microsecond].
  rewrite !andb_true_iff in Ht. destruct Ht as [[_ Hus0] Hus1].
  rewrite Hus0, Hus1, !andb_true_r. clear Hr Hus0 Hus1.
  set (secs := (seconds_of_day (dt_time dt) + n) mod 86400).
  assert (Hs : 0 <= secs < 86400) by (apply Z.mod_pos_bound; lia).
  clearbody secs.
  rewrite !andb_true_iff, !Z.leb_le, !Z.ltb_lt.
  repeat split; Z.div_mod_to_equations; lia.
Qed.

Section Bucle.

Variables (s m l f : string) (rnd : azar) (inicio : datetime).
Hypothesis inicio_valido : valid_datetime inicio = true.
Hypothesis s_codificable : PyStr.has_surrogate s = false.

(** The loop from the [j]-th instant: while the instants stay in range it
    appends one reading per iteration, each at its instant. *)
Lemma bucle_ok (n : nat) :
  forall (j k : nat) (instante : datetime) (acc : list dict),
    add_seconds inicio (10 * Z.of_nat j) = Some instante ->
    add_seconds inicio (10 * Z.of_nat (j + n)) <> None ->
    exists filas,
      bucle n s m l f rnd instante k acc = inr (acc ++ filas)%list
      /\ List.length filas = n
      /\ forall i, (i < n)%nat ->
           exists dt row,
             add_seconds inicio (10 * Z.of_nat (j + i)) = Some dt
             /\ nth_error filas i = Some row
             /\ es_lectura row s m l f dt rnd (k + 6 * i).
Proof.
  induction n as [|n IH]; intros j k instante acc Hj Hn.
  - exists []. cbn [bucle]. rewrite app_nil_r. repeat split. intros i Hi. lia.
  - cbn [bucle].
    destruct (fila_simulada_ok s m l f instante rnd k s_codificable)
      as (row0 & -> & Hrow0).
    cbn [bind]. unfold avanzar.
    assert (Hstep : add_seconds instante 10
                    = add_seconds inicio (10 * Z.of_nat (S j))).
    { rewrite (add_seconds_add _ _ _ 10 Hj). f_equal. lia. }
    destruct (add_seconds inicio (10 * Z.of_nat (S j))) as [inst1|] eqn:H1.
    2:{ exfalso. revert H1.
        apply (add_seconds_below inicio _ (10 * Z.of_nat (j + S n)));
          solve [assumption | lia]. }
    rewrite Hstep. cbn [bind].
    destruct (IH (S j) (k + 6)%nat inst1 (acc ++ [row0])%list H1) as (filas & Hb & Hlen & Hnth).
    { replace (S j + n)%nat with (j + S n)%nat by lia. assumption. }
    exists (row0 :: filas). rewrite Hb, <- app_assoc. cbn [app List.length].
    repeat split; [congruence|].
    intros [|i] Hi.
    + exists instante, row0. rewrite Nat.add_0_r, Nat.mul_0_r, Nat.add_0_r.
      split; [assumption | split; [reflexivity | assumption]].
    + destruct (Hnth i ltac:(lia)) as (dt & row & Hdt & Hrow & Hes).
      exists dt, row. cbn [nth_error].
      replace (j + S i)%nat with (S j + i)%nat by lia.
      replace (k + 6 * S i)%nat with (k + 6 + 6 * i)%nat by lia.
      split; [assumption | split; assumption].
Qed.

(** When the instants run out of range the loop raises [OverflowError]. *)
Lemma bucle_overflow (n : nat) :
  forall (k : nat) (instante : datetime) (acc : list dict),
    valid_datetime instante = true ->
    add_seconds instante (10 * Z.of_nat (S n)) = None ->
    bucle (S n) s m l f rnd instante k acc = inl OverflowError.
Proof.
  induction n as [|n IH]; intros k instante acc Hv Hn.
  - cbn [bucle].
    destruct (fila_simulada_ok s m l f instante rnd k s_codificable)
      as (row0 & -> & _).
    cbn [bind]. unfold avanzar. change (10 * Z.of_nat 1) with 10 in Hn.
    rewrite Hn. reflexivity.
  - cbn [bucle].
    destruct (fila_simulada_ok s m l f instante rnd k s_codificable)
      as (row0 & -> & _).
    cbn [bind]. unfold avanzar.
    destruct (add_seconds instante 10) as [inst1|] eqn:H1; [|reflexivity].
    cbn [bind]. apply IH.
    + exact (add_seconds_valid _ _ _ Hv H1).
    + rewrite (add_seconds_add _ _ _ _ H1), <- Hn. f_equal. lia.
Qed.

End Bucle.

(** On well-formed values, a later [timestamp] is a greater [datetime]. *)
Lemma timestamp_lt_datetime_lt (dt1 dt2 : datetime) :
  valid_datetime dt1 = true -> valid_datetime dt2 = true ->
  timestamp dt1 < timestamp dt2 -> datetime_lt dt1 dt2.
Proof.
  unfold valid_datetime. rewrite !andb_true_iff. intros [Hd1 Ht1] [Hd2 Ht2] Hlt.
  pose proof (valid_time_seconds _ Ht1) as [Hs1 _].
  pose proof (valid_time_seconds _ Ht2) as [Hs2 _].
  apply valid_date_month_day in Hd1 as [Hmd1 _].
  apply valid_date_month_day in Hd2 as [Hmd2 _].
  unfold timestamp in Hlt. unfold datetime_lt.
  destruct (Z.lt_trichotomy (toordinal (dt_date dt1)) (toordinal (dt_date dt2)))
    as [Ho | [Ho | Ho]]; [| |lia].
  - left. apply toordinal_lt_iff; assumption.
  - right. split; [apply toordinal_inj; assumption|].
    rewrite Ho in Hlt. unfold valid_time in Ht1, Ht2.
    rewrite !andb_true_iff, !Z.leb_le, !Z.ltb_lt in Ht1, Ht2.
    unfold seconds_of_day in *. unfold time_lt. lia.
Qed.

Section Generador.

Variables (s m l f : string) (rnd : azar) (inicio : datetime).
Hypothesis inicio_valido : valid_datetime inicio = true.
Hypothesis s_codificable : PyStr.has_surrogate s = false.

Lemma generar_ok (N : Z) :
  add_seconds inicio (10 * Z.max 0 N) <> None ->
  exists registros,
    generar_registros_simulados N s m l f inicio rnd = inr registros
    /\ List.length registros = Z.to_nat N
    /\ forall i, (i < Z.to_nat N)%nat ->
         exists dt row,
           add_seconds inicio (10 * Z.of_nat i) = Some dt
           /\ nth_error registros i = Some row
           /\ es_lectura row s m l f dt rnd (6 * i).
Proof.
  intros Hr. unfold generar_registros_simulados.
  destruct (bucle_ok s m l f rnd inicio inicio_valido s_codificable
              (Z.to_nat N) 0 0 inicio [])
    as (filas & Hb & Hlen & Hnth).
  - exact (add_seconds_0 _ inicio_valido).
  - cbn [Nat.add]. replace (Z.of_nat (Z.to_nat N)) with (Z.max 0 N) by lia.
    assumption.
  - exists filas. cbn [app] in Hb. repeat split; assumption.
Qed.

Lemma generar_overflow (N : Z) :
  0 < N -> add_seconds inicio (10 * N) = None ->
  generar_registros_simulados N s m l f inicio rnd = inl OverflowError.
Proof.
  intros HN Hr. unfold generar_registros_simulados.
  destruct (Z.to_nat N) as [|n] eqn:E; [lia|].
  apply bucle_overflow; [assumption | assumption |].
  rewrite <- Hr. f_equal. lia.
Qed.

(** Every reading a run returns is the reading of its index. *)
Lemma generar_inr (N : Z) (registros : list dict) :
  generar_registros_simulados N s m l f inicio rnd = inr registros ->
  List.length registros = Z.to_nat N
  /\ forall i row, nth_error registros i = Some row ->
       exists dt, add_seconds inicio (10 * Z.of_nat i) = Some dt
                  /\ es_lectura row s m l f dt rnd (6 * i).
Proof.
  intros Hgen.
  destruct (add_seconds inicio (10 * Z.max 0 N)) as [fin|] eqn:Hfin.
  - destruct (generar_ok N) as (regs & Hg & Hlen & Hnth); [congruence|].
    rewrite Hgen in Hg. injection Hg as <-. split; [assumption|].
    intros i row Hrow.
    assert (Hi : (i < Z.to_nat N)%nat).
    { rewrite <- Hlen. apply nth_error_Some. congruence. }
    destruct (Hnth i Hi) as (dt & row' & Hdt & Hrow' & Hes).
    exists dt. split; [assumption|]. congruence.
  - destruct (Z.lt_ge_cases 0 N) as [Hpos | Hneg].
    + rewrite generar_overflow in Hgen; [discriminate | assumption|].
      rewrite <- Hfin. f_equal. lia.
    + replace (Z.max 0 N) with 0 in Hfin by lia. change (10 * 0) with 0 in Hfin.
      rewrite (add_seconds_0 _ inicio_valido) in Hfin. discriminate.
Qed.

End Generador.

(** ** Order of floats *)

Lemma SFcompare_antisym (x y : spec_float) :
  SFcompare y x = option_map CompOpp (SFcompare x y).
Proof.
  destruct x as [[]|[]| |[] mx ex], y as [[]|[]| |[] my ey]; simpl; try reflexivity.
  - rewrite (Z.compare_antisym ex ey), (ZC4 my mx).
    destruct (ex ?= ey); simpl; try reflexivity.
  - rewrite (Z.compare_antisym ex ey), (ZC4 my mx).
    destruct (ex ?= ey); simpl; reflexivity.
Qed.

Lemma SFleb_trans (x y z : spec_float) :
  SFleb x y = true -> SFleb y z = true -> SFleb x z = true.
Proof.
  unfold SFleb, SFcompare.
  destruct x as [[]|[]| |[] mx ex], y as [[]|[]| |[] my ey], z as [[]|[]| |[] mz ez];
    try discriminate; try reflexivity; intros Hxy Hyz;
    change (Pos.compare_cont Eq) with Pos.compare in *;
    destruct (Z.compare_spec ex ey), (Z.compare_spec ey ez), (Z.compare_spec ex ez);
    try discriminate; try reflexivity; try lia; subst;
    destruct (Pos.compare_spec mx my), (Pos.compare_spec my mz), (Pos.compare_spec mx mz);
    try discriminate; try reflexivity; try lia.
Qed.

Lemma ltb_leb_false (x y : float) :
  (x <? y)%float = true -> (y <=? x)%float = false.
Proof.
  rewrite ltb_spec, leb_spec. unfold SFltb, SFleb.
  rewrite (SFcompare_antisym (Prim2SF x) (Prim2SF y)).
  destruct (SFcompare (Prim2SF x) (Prim2SF y)) as [[]|]; simpl; congruence.
Qed.

Lemma leb_trans (x y z : float) :
  (x <=? y)%float = true -> (y <=? z)%float = true -> (x <=? z)%float = true.
Proof. rewrite !leb_spec. apply SFleb_trans. Qed.

Lemma above_not_leb (a b v : float) :
  (b <=? a)%float = true -> (a <? v)%float = true -> (v <=? b)%float = false.
Proof.
  intros Hba Hav. destruct (v <=? b)%float eqn:Hvb; [|reflexivity].
  pose proof (leb_trans _ _ _ Hvb Hba) as H.
  rewrite (ltb_leb_false _ _ Hav) in H. discriminate.
Qed.

(** Whatever the instants, a run only returns readings built by the loop
    body. *)
Lemma bucle_filas (s m l f : string) (rnd : azar) (n : nat) :
  forall (instante : datetime) (k : nat) (acc registros : list dict),
    bucle n s m l f rnd instante k acc = inr registros ->
    forall row, In row registros ->
      In row acc \/
      exists instante' k', es_lectura row s m l f instante' rnd k'.
Proof.
  induction n as [|n IH]; intros instante k acc registros Hb row Hin.
  - cbn [bucle] in Hb. injection Hb as <-. now left.
  - cbn [bucle] in Hb.
    destruct (fila_simulada s m l f instante rnd k) as [e | row0] eqn:E;
      [discriminate|].
    apply fila_simulada_inr in E as [_ Hrow0]. cbn [bind] in Hb.
    destruct (avanzar instante) as [e | inst1]; [discriminate|].
    cbn [bind] in Hb.
    destruct (IH _ _ _ _ Hb row Hin) as [Hacc | Hnew]; [|now right].
    apply in_app_or in Hacc as [Hacc | [<- | []]]; [now left|].
    right. now exists instante, k.
Qed.

Lemma generar_filas (N : Z) (s m l f : string) (inicio : datetime)
    (rnd : azar) (registros : list dict) (row : dict) :
  generar_registros_simulados N s m l f inicio rnd = inr registros ->
  In row registros ->
  exists instante k, es_lectura row s m l f instante rnd k.
Proof.
  intros Hgen Hin.
  destruct (bucle_filas _ _ _ _ _ _ _ _ _ _ Hgen row Hin) as [[] | H].
  exact H.
Qed.

(** ** Rounding, and the range of the simulated concentration *)

Lemma iter_pos_nat {A} (f : A -> A) (p : positive) (x : A) :
  iter_pos f p x = Nat.iter (Pos.to_nat p) f x.
Proof.
  revert x. induction p as [p IH | p IH |]; intros x; cbn [iter_pos].
  - rewrite !IH, Pos2Nat.inj_xI, <- Nat.iter_succ_r, <- Nat.iter_add.
    f_equal. lia.
  - rewrite !IH, Pos2Nat.inj_xO, <- Nat.iter_add. f_equal. lia.
  - reflexivity.
Qed.

Lemma shr_1_m (mrs : shr_record) :
  0 <= shr_m mrs -> shr_m (shr_1 mrs) = shr_m mrs / 2.
Proof.
  destruct mrs as [m r s]. simpl. intros Hm.
  destruct m as [|[p|p|]|p]; simpl; try lia; try reflexivity.
  - rewrite Pos2Z.inj_xI. Z.div_mod_to_equations; lia.
  - rewrite Pos2Z.inj_xO. Z.div_mod_to_equations; lia.
Qed.

Lemma shr_iter_m (k : nat) (mrs : shr_record) :
  0 <= shr_m mrs ->
  shr_m (Nat.iter k shr_1 mrs) = shr_m mrs / 2 ^ Z.of_nat k.
Proof.
  intros Hm. induction k as [|k IH].
  - simpl. now rewrite Z.div_1_r.
  - rewrite Nat2Z.inj_succ, Z.pow_succ_r by lia. change (Nat.iter (S k) shr_1 mrs) with (shr_1 (Nat.iter k shr_1 mrs)).
    assert (Hp : 0 < 2 ^ Z.of_nat k) by (apply Z.pow_pos_nonneg; lia).
    rewrite shr_1_m by (rewrite IH; apply Z.div_pos; assumption).
    rewrite IH, Z.div_div by lia. f_equal. lia.
Qed.

Lemma shr_fexp_m (m e : Z) (l : location) :
  0 <= m ->
  let n := Z.max 0 (fexp prec emax (Zdigits2 m + e) - e) in
  shr_m (fst (shr_fexp prec emax m e l)) = m / 2 ^ n /\
  snd (shr_fexp prec emax m e l) = e + n.
Proof.
  intros Hm n. unfold shr_fexp, shr.
  assert (Hrec : shr_m (shr_record_of_loc m l) = m) by (destruct l as [|[]]; reflexivity).
  subst n. destruct (fexp prec emax (Zdigits2 m + e) - e) as [|p|p]; simpl fst; simpl snd.
  - rewrite Hrec. simpl. rewrite Z.div_1_r. lia.
  - rewrite iter_pos_nat, shr_iter_m, Hrec by (rewrite Hrec; lia).
    rewrite positive_nat_Z. split; [f_equal; f_equal|]; lia.
  - rewrite Hrec. simpl. rewrite Z.div_1_r. lia.
Qed.

Lemma round_nearest_even_bounds (m : Z) (l : location) :
  m <= round_nearest_even m l <= m + 1.
Proof. destruct l as [|[]]; simpl; try destruct (Z.even m); lia. Qed.

Lemma digits2_pos_size (p : positive) : digits2_pos p = Pos.size p.
Proof. induction p; simpl; congruence. Qed.

Lemma Zdigits2_bounds (m : Z) :
  0 < m -> 2 ^ (Zdigits2 m - 1) <= m < 2 ^ Zdigits2 m.
Proof.
  destruct m as [|p|p]; try lia. intros _. cbn [Zdigits2].
  rewrite digits2_pos_size.
  pose proof (Pos.size_gt p) as Hgt. pose proof (Pos.size_le p) as Hle.
  apply Pos2Z.pos_lt_pos in Hgt. apply Pos2Z.pos_le_pos in Hle.
  rewrite Pos2Z.inj_pow in Hgt, Hle.
  replace (2 ^ Z.pos (Pos.size p)) with (2 * 2 ^ (Z.pos (Pos.size p) - 1)) in *.
  - lia.
  - rewrite <- Z.pow_succ_r by lia. f_equal. lia.
Qed.

Lemma pow2_lt_exp (a b : Z) : 0 <= b -> 2 ^ a < 2 ^ b -> a < b.
Proof. intros Hb H. apply (Z.pow_lt_mono_r_iff 2); lia. Qed.

Lemma binary_round_aux_80 (mx ex : Z) (lx : location) :
  0 < mx -> ex <= 4 -> mx < 5 * 2 ^ (4 - ex) ->
  SF_in_0_80 (binary_round_aux prec emax false mx ex lx).
Proof.
  intros Hmx Hex Hlt. unfold binary_round_aux.
  pose proof (shr_fexp_m mx ex lx ltac:(lia)) as [Hm1 He1].
  destruct (shr_fexp prec emax mx ex lx) as [mrs1 e1]. simpl in Hm1, He1.
  set (n1 := Z.max 0 (fexp prec emax (Zdigits2 mx + ex) - ex)) in *.
  set (m2 := round_nearest_even (shr_m mrs1) (loc_of_shr_record mrs1)).
  pose proof (round_nearest_even_bounds (shr_m mrs1) (loc_of_shr_record mrs1)) as Hm2.
  fold m2 in Hm2. rewrite Hm1 in Hm2.
  (* the first shift stays below the bound *)
  pose proof (Zdigits2_bounds mx Hmx) as Hd.
  assert (Hdx : Zdigits2 mx + ex <= 7).
  { assert (2 ^ (Zdigits2 mx - 1) < 2 ^ (7 - ex)).
    { replace (7 - ex) with (3 + (4 - ex)) by lia. rewrite Z.pow_add_r by lia.
      change (2 ^ 3) with 8. lia. }
    apply pow2_lt_exp in H; lia. }
  assert (Hn1 : 0 <= n1) by (unfold n1; lia).
  assert (He1' : e1 <= 4).
  { subst e1. unfold n1, fexp, SpecFloat.emin, prec, emax. lia. }
  assert (Hq : mx / 2 ^ n1 + 1 <= 5 * 2 ^ (4 - e1)).
  { assert (mx / 2 ^ n1 < 5 * 2 ^ (4 - e1)); [|lia].
    apply Z.div_lt_upper_bound; [apply Z.pow_pos_nonneg; lia|].
    replace (2 ^ n1 * (5 * 2 ^ (4 - e1))) with (5 * 2 ^ (4 - ex)); [lia|].
    replace (4 - ex) with (n1 + (4 - e1)) by lia.
    rewrite Z.pow_add_r by lia. ring. }
  assert (Hm2pos : 0 <= m2).
  { pose proof (Z.div_pos mx (2 ^ n1) ltac:(lia) ltac:(apply Z.pow_pos_nonneg; lia)). lia. }
  pose proof (shr_fexp_m m2 e1 loc_Exact Hm2pos) as [Hm3 He3].
  destruct (shr_fexp prec emax m2 e1 loc_Exact) as [mrs3 e3]. simpl in Hm3, He3.
  set (n2 := Z.max 0 (fexp prec emax (Zdigits2 m2 + e1) - e1)) in *.
  assert (Hn2 : 0 <= n2) by (unfold n2; lia).
  destruct (Z.eq_dec m2 0) as [Hz | Hnz].
  { rewrite Hm3, Hz. rewrite Z.div_0_l by (apply Z.pow_nonzero; lia). exact I. }
  pose proof (Zdigits2_bounds m2 ltac:(lia)) as Hd2.
  assert (Hdx2 : Zdigits2 m2 + e1 <= 8).
  { assert (2 ^ (Zdigits2 m2 - 1) < 2 ^ (8 - e1)).
    { replace (8 - e1) with (4 + (4 - e1)) by lia. rewrite Z.pow_add_r by lia.
      change (2 ^ 4) with 16. pose proof (Z.pow_pos_nonneg 2 (4 - e1)). lia. }
    apply pow2_lt_exp in H; lia. }
  assert (He3' : e3 <= 4).
  { subst e3. unfold n2, fexp, SpecFloat.emin, prec, emax. lia. }
  assert (Hq3 : shr_m mrs3 <= 5 * 2 ^ (4 - e3)).
  { rewrite Hm3. apply Z.div_le_upper_bound; [apply Z.pow_pos_nonneg; lia|].
    replace (2 ^ n2 * (5 * 2 ^ (4 - e3))) with (5 * 2 ^ (4 - e1)); [lia|].
    replace (4 - e1) with (n2 + (4 - e3)) by lia.
    rewrite Z.pow_add_r by lia. ring. }
  assert (Hm3pos : 0 <= shr_m mrs3).
  { rewrite Hm3. apply Z.div_pos; [lia | apply Z.pow_pos_nonneg; lia]. }
  destruct (shr_m mrs3) as [|p|p]; try lia; [exact I|].
  replace (e3 <=? emax - prec) with true
    by (symmetry; apply Z.leb_le; unfold emax, prec; lia).
  simpl. split; assumption.
Qed.

Lemma Prim2SF_80 : Prim2SF 80 = S754_finite false 5629499534213120 (-46).
Proof. vm_compute. reflexivity. Qed.

Lemma Prim2SF_1 : Prim2SF 1 = S754_finite false 4503599627370496 (-52).
Proof. vm_compute. reflexivity. Qed.

Lemma Prim2SF_0 : Prim2SF 0 = S754_zero false.
Proof. vm_compute. reflexivity. Qed.

Lemma canonical_digits (m : positive) (e : Z) :
  canonical_mantissa prec emax m e = true ->
  Zdigits2 (Zpos m) <= 53 /\ (e = -1074 \/ Zdigits2 (Zpos m) = 53).
Proof.
  unfold canonical_mantissa, fexp, SpecFloat.emin, prec, emax. cbn [Zdigits2].
  intros H. apply Z.eqb_eq in H. lia.
Qed.

(** A float of [[0, 1)] times 80 is a float of [[0, 80]]. *)
Lemma mul_80_rango (u : float) :
  (0 <=? u)%float = true -> (u <? 1)%float = true ->
  SF_in_0_80 (Prim2SF (80 * u)%float).
Proof.
  rewrite leb_spec, ltb_spec, mul_spec, Prim2SF_0, Prim2SF_1, Prim2SF_80.
  pose proof (Prim2SF_valid u) as Hvalid.
  destruct (Prim2SF u) as [[]|[]| |[] m e];
    cbv [SFleb SFltb SFcompare SF64mul SFmul xorb SF_in_0_80];
    try discriminate; intros _ Hlt; try exact I.
  change (SF_in_0_80
            (binary_round_aux prec emax false
               (Z.pos (5629499534213120 * m)) (-46 + e) loc_Exact)).
  cbv [valid_binary bounded] in Hvalid.
  apply andb_true_iff in Hvalid as [Hcanon _].
  apply canonical_digits in Hcanon as [Hd _].
  pose proof (Zdigits2_bounds (Zpos m) ltac:(lia)) as [_ Hm].
  assert (Hme : Zpos m < 2 ^ (- e) /\ e <= -52).
  { destruct (Z.compare_spec e (-52)) as [-> | He | He]; try discriminate.
    - destruct (PosDef.Pos.compare_cont Eq m 4503599627370496) eqn:Hc;
        try discriminate.
      apply (proj1 (Pos.compare_lt_iff m 4503599627370496)) in Hc.
      split; [|apply Z.le_refl]. apply Pos2Z.pos_lt_pos in Hc. exact Hc.
    - split; [|lia]. apply Z.lt_le_trans with (1 := Hm).
      apply Z.pow_le_mono_r; lia. }
  destruct Hme as [Hme He]. clear Hlt.
  apply binary_round_aux_80; [lia | lia |].
  rewrite Pos2Z.inj_mul.
  replace (4 - (-46 + e)) with (50 + (- e)) by lia.
  rewrite Z.pow_add_r by lia. change (2 ^ 50) with 1125899906842624.
  change (Z.pos 5629499534213120) with (5 * 1125899906842624).
  nia.
Qed.

Lemma add_0_rango (x : float) :
  SF_in_0_80 (Prim2SF x) -> SF_pos_0_80 (Prim2SF (0 + x)%float).
Proof.
  rewrite add_spec, Prim2SF_0.
  destruct (Prim2SF x) as [[]|[]| |[] m e];
    cbv [SF_in_0_80 SF_pos_0_80 SF64add SFadd]; intros H;
    try contradiction; auto.
Qed.

(** What [uniform(0, 80)] computes from a draw of [[0, 1)]. *)
Lemma uniform_0_80_rango (u : float) :
  (0 <=? u)%float = true -> (u <? 1)%float = true ->
  SF_pos_0_80 (Prim2SF (PyFloat.uniform 0 80 u)).
Proof.
  intros H0 H1. unfold PyFloat.uniform.
  change (80 - 0)%float with 80%float.
  apply add_0_rango, mul_80_rango; assumption.
Qed.

Lemma centesimas_ok (d : Z) :
  0 <= d <= 8000 -> centesimas_check d = true.
Proof.
  intros Hd. apply (forallb_range centesimas_check (Z.to_nat 8001)); [|lia].
  vm_compute. reflexivity.
Qed.

Lemma div_half_even_le (a b B : Z) :
  0 <= a -> 0 < b -> a <= B * b ->
  0 <= PyFloat.div_half_even a b <= B.
Proof.
  intros Ha Hb HB. unfold PyFloat.div_half_even.
  pose proof (Z.div_mod a b ltac:(lia)) as Hdm.
  pose proof (Z.mod_pos_bound a b Hb) as Hr.
  pose proof (Z.div_pos a b Ha Hb) as Hq.
  set (q := a / b) in *. set (r := a mod b) in *. clearbody q r.
  assert (Hq' : q <= B) by nia.
  assert (Hlt : q = B -> r = 0) by nia.
  destruct (Z.compare_spec (2 * r) b); [destruct (Z.even q)| |]; nia.
Qed.

(** [round(x, 2)] of a float of [[0, 80]] is the float nearest to a whole
    number of hundredths from 0 to 8000. *)
Lemma round_2_rango (x : float) :
  SF_pos_0_80 (Prim2SF x) ->
  exists d, 0 <= d <= 8000 /\ Prim2SF (PyFloat.round x 2) = centesimas d.
Proof.
  intros Hx. unfold PyFloat.round.
  pose proof (Prim2SF_valid x) as Hvalid.
  destruct (Prim2SF x) as [[]|[]| |[] m e] eqn:E;
    cbv [SF_pos_0_80] in Hx; try contradiction.
  - exists 0. split; [lia|]. exact E.
  - destruct Hx as [He Hm].
    cbv [valid_binary bounded] in Hvalid.
    apply andb_true_iff in Hvalid as [Hcanon _].
    apply canonical_digits in Hcanon as [_ Hcanon].
    pose proof (Zdigits2_bounds (Zpos m) ltac:(lia)) as [Hlow _].
    assert (Hneg : e < 0).
    { destruct Hcanon as [-> | Hd]; [lia|].
      rewrite Hd in Hlow. change (2 ^ (53 - 1)) with 4503599627370496 in Hlow.
      destruct (Z.lt_ge_cases e 0) as [|Hge]; [assumption|]. exfalso.
      assert (2 ^ (4 - e) <= 2 ^ 4) by (apply Z.pow_le_mono_r; lia).
      change (2 ^ 4) with 16 in *. lia. }
    destruct e as [|p|p]; try lia. cbn [PyFloat.fraction_of].
    change (Z.of_N (10 ^ 2)) with 100. change (10 ^ 2)%N with 100%N.
    assert (Hb : Zpos m * 100 <= 8000 * Zpos (2 ^ p)).
    { rewrite Pos2Z.inj_pow. change (4 - Z.neg p) with (4 + Z.pos p) in Hm.
      rewrite Z.pow_add_r in Hm by lia. change (2 ^ 4) with 16 in Hm.
      change (Z.pos 2) with 2. lia. }
    pose proof (div_half_even_le (Zpos m * 100) (Zpos (2 ^ p)) 8000
                  ltac:(lia) ltac:(lia) Hb) as Hd.
    set (d := PyFloat.div_half_even (Zpos m * 100) (Zpos (2 ^ p))) in *.
    exists d. split; [assumption|].
    pose proof (centesimas_ok d Hd) as Hok. unfold centesimas_check in Hok.
    rewrite !andb_true_iff in Hok. destruct Hok as [[Hv _] _].
    clearbody d. destruct d as [|d|d]; try lia.
    + apply Prim2SF_SF2Prim. reflexivity.
    + apply Prim2SF_SF2Prim. exact Hv.
Qed.

(** The simulated concentration lies in [[0, 80]] and has two decimals. *)
Lemma ppm_simulado_rango (rnd : azar) (k : nat) :
  (0 <=? rnd k)%float = true -> (rnd k <? 1)%float = true ->
  (exists d, 0 <= d <= 8000 /\ Prim2SF (ppm_simulado rnd k) = centesimas d)
  /\ (0 <=? ppm_simulado rnd k)%float = true
  /\ (ppm_simulado rnd k <=? 80)%float = true.
Proof.
  intros H0 H1. unfold ppm_simulado.
  destruct (round_2_rango _ (uniform_0_80_rango _ H0 H1)) as (d & Hd & E).
  split; [exists d; split; assumption|].
  rewrite !leb_spec, E, Prim2SF_0, Prim2SF_80.
  pose proof (centesimas_ok d Hd) as Hok. unfold centesimas_check in Hok.
  rewrite !andb_true_iff in Hok. destruct Hok as [[_ Hlo] Hhi].
  split; assumption.
Qed.

(** ** The loader *)

Lemma primero_o_ninguno_ok (l : list string) :
  primero_o_ninguno l = inr (alternativa l).
Proof. destruct l; reflexivity. Qed.

Lemma advertir_ok (id tabla : string) (ids : list string) :
  advertir id tabla ids = (avisos id tabla ids, inr tt).
Proof.
  unfold advertir, avisos. rewrite primero_o_ninguno_ok.
  destruct (contiene ids id); reflexivity.
Qed.

Ltac reducir_accion :=
  cbv [bind_accion emit lift ret raise print driver try_except consultar
       al_fallar_validacion app fst snd].

(** The validation step when the four queries answer. *)
Lemma validar_ok (cfg : config) (w : mundo)
    (sensores micros lineas fabricas : list string) :
  al_consultar w SQL_SENSOR = inr sensores ->
  al_consultar w SQL_MICRO = inr micros ->
  al_consultar w SQL_LINEA = inr lineas ->
  al_consultar w SQL_FABRICA = inr fabricas ->
  validar cfg w =
    ([Execute SQL_SENSOR; Fetchall; PrintLista "Sensores disponibles: " sensores;
      Execute SQL_MICRO; Fetchall;
      PrintLista "Microcontroladores disponibles: " micros;
      Execute SQL_LINEA; Fetchall; PrintLista "Líneas disponibles: " lineas;
      Execute SQL_FABRICA; Fetchall;
      PrintLista "Fábricas disponibles: " fabricas; Print ""]
     ++ avisos (ID_SENSOR cfg) "sensor" sensores
     ++ avisos (ID_MICRO cfg) "microcontrolador" micros
     ++ avisos (ID_LINEA cfg) "linea" lineas
     ++ avisos (ID_FABRICA cfg) "fabrica" fabricas
     ++ [Print ""], inr tt)%list.
Proof.
  intros Hs Hm Hl Hf. unfold validar, consultar.
  rewrite Hs. cbv [bind_accion emit lift ret print app].
  rewrite Hm. cbv [bind_accion emit lift ret print app].
  rewrite Hl. cbv [bind_accion emit lift ret print app].
  rewrite Hf. cbv [bind_accion emit lift ret print app].
  rewrite !advertir_ok. cbv [bind_accion emit lift ret print].
  reflexivity.
Qed.

Lemma avisos_validacion (id tabla : string) (ids : list string) :
  forallb es_validacion (avisos id tabla ids) = true.
Proof. unfold avisos. destruct (contiene ids id); reflexivity. Qed.

(** The validation step never lets an exception out; its trace holds only
    queries and console lines, and ends with the log of the failure when a
    query failed. *)
Lemma validacion_total (cfg : config) (w : mundo) :
  exists tv,
    try_except (validar cfg w) al_fallar_validacion = (tv, inr tt)
    /\ forallb es_validacion tv = true
    /\ match primera_falla w with
       | Some e =>
           exists tv', tv = (tv' ++
             [Print ("Error al consultar tablas relacionadas: "
                     ++ str_excepcion e);
              Print ("Continuando con la inserción..." ++ PyStr.newline)])%list
       | None => snd (validar cfg w) = inr tt /\ tv = fst (validar cfg w)
       end.
Proof.
  unfold primera_falla.
  destruct (al_consultar w SQL_SENSOR) as [e|sensores] eqn:Hs.
  { unfold validar, consultar. rewrite Hs. reducir_accion.
    eexists. split; [reflexivity|]. split; [reflexivity|].
    now exists [Execute SQL_SENSOR]. }
  destruct (al_consultar w SQL_MICRO) as [e|micros] eqn:Hm.
  { unfold validar, consultar. rewrite Hs; reducir_accion; rewrite Hm; reducir_accion.
    eexists. split; [reflexivity|]. split; [reflexivity|].
    now exists [Execute SQL_SENSOR; Fetchall;
                PrintLista "Sensores disponibles: " sensores;
                Execute SQL_MICRO]. }
  destruct (al_consultar w SQL_LINEA) as [e|lineas] eqn:Hl.
  { unfold validar, consultar. rewrite Hs; reducir_accion; rewrite Hm; reducir_accion; rewrite Hl; reducir_accion.
    eexists. split; [reflexivity|]. split; [reflexivity|].
    now exists [Execute SQL_SENSOR; Fetchall;
                PrintLista "Sensores disponibles: " sensores;
                Execute SQL_MICRO; Fetchall;
                PrintLista "Microcontroladores disponibles: " micros;
                Execute SQL_LINEA]. }
  destruct (al_consultar w SQL_FABRICA) as [e|fabricas] eqn:Hf.
  { unfold validar, consultar. rewrite Hs; reducir_accion; rewrite Hm; reducir_accion; rewrite Hl; reducir_accion; rewrite Hf; reducir_accion.
    eexists. split; [reflexivity|]. split; [reflexivity|].
    now exists [Execute SQL_SENSOR; Fetchall;
                PrintLista "Sensores disponibles: " sensores;
                Execute SQL_MICRO; Fetchall;
                PrintLista "Microcontroladores disponibles: " micros;
                Execute SQL_LINEA; Fetchall;
                PrintLista "Líneas disponibles: " lineas;
                Execute SQL_FABRICA]. }
  rewrite (validar_ok cfg w _ _ _ _ Hs Hm Hl Hf). cbv [try_except fst snd].
  eexists. split; [reflexivity|]. split; [|split; reflexivity].
  cbn [app forallb es_validacion andb].
  rewrite !forallb_app, !avisos_validacion. reflexivity.
Qed.

(** A tuple holds the values of the columns of the [INSERT], in its order. *)
Lemma tupla_columnas (r : dict) (t : list valor) :
  tupla r = inr t ->
  map Some t = map (fun c => dict_get c r) columnas_insert.
Proof.
  unfold tupla, subscript, columnas_insert. cbn [map].
  repeat match goal with
         | |- context [dict_get ?k r] =>
             destruct (dict_get k r); cbn [bind]; [|discriminate]
         end.
  intros [= <-]. reflexivity.
Qed.

(** A row that has every column gives a tuple; the first missing column is
    the [KeyError]. *)
Lemma tupla_total (r : dict) :
  (forall c, In c columnas_insert -> dict_get c r <> None) ->
  exists t, tupla r = inr t.
Proof.
  intros H. unfold tupla, subscript.
  repeat match goal with
         | |- context [dict_get ?k r] =>
             let E := fresh "E" in
             destruct (dict_get k r) eqn:E; cbn [bind];
             [|exfalso; apply (H k); [cbn; tauto | exact E]]
         end.
  eexists. reflexivity.
Qed.

Lemma dict_get_keys (k : string) (d : dict) :
  In k (keys d) -> dict_get k d <> None.
Proof.
  induction d as [|[k' v] d IH]; cbn [keys map fst In dict_get]; [tauto|].
  intros [-> | H].
  - rewrite String.eqb_refl. discriminate.
  - destruct (String.eqb k k'); [discriminate | now apply IH].
Qed.

Lemma tuplas_Forall2 (registros : list dict) :
  forall values, tuplas registros = inr values ->
                 Forall2 (fun r t => tupla r = inr t) registros values.
Proof.
  induction registros as [|r rs IH]; intros values; cbn [tuplas].
  - intros [= <-]. constructor.
  - destruct (tupla r) as [e|t] eqn:Et; cbn [bind]; [discriminate|].
    destruct (tuplas rs) as [e|ts]; cbn [bind]; [discriminate|].
    intros [= <-]. constructor; [assumption | now apply IH].
Qed.

Lemma tuplas_total (registros : list dict) :
  Forall (fun r => exists t, tupla r = inr t) registros ->
  exists values, tuplas registros = inr values.
Proof.
  induction 1 as [|r rs [t Ht] _ [ts Hts]]; cbn [tuplas].
  - now exists [].
  - rewrite Ht, Hts. cbn [bind]. now eexists.
Qed.

(** The tuple of a simulated reading carries the identifiers it was
    generated with. *)
Lemma tupla_es_lectura (row : dict) (s m l f : string) (dt : datetime)
    (rnd : azar) (k : nat) :
  es_lectura row s m l f dt rnd k ->
  exists t, tupla row = inr t
            /\ nth_error t 2 = Some (VStr s) /\ nth_error t 3 = Some (VStr m)
            /\ nth_error t 4 = Some (VStr l) /\ nth_error t 5 = Some (VStr f).
Proof.
  intros (Hk & _ & _ & Hs & Hm & Hl & Hf & _).
  destruct (tupla_total row) as [t Ht].
  { intros c Hc. apply dict_get_keys. now rewrite Hk. }
  exists t. split; [assumption|].
  pose proof (tupla_columnas _ _ Ht) as Hcols.
  unfold columnas_insert in Hcols. cbn [map] in Hcols.
  rewrite Hs, Hm, Hl, Hf in Hcols.
  destruct t as [|v1 [|v2 [|v3 [|v4 [|v5 [|v6 t]]]]]]; try discriminate.
  cbn [map] in Hcols. injection Hcols as _ _ -> -> -> -> _.
  repeat split.
Qed.

(** *** Pages of the bulk insert *)

Lemma paginas_concat {A : Type} (n fuel : nat) :
  forall seq : list A,
    (List.length seq <= fuel)%nat -> (0 < n)%nat ->
    List.concat (paginas fuel n seq) = seq.
Proof.
  induction fuel as [|fuel IH]; intros seq Hlen Hn.
  - destruct seq; [reflexivity | cbn [List.length] in Hlen; lia].
  - destruct seq as [|x seq]; [reflexivity|].
    cbn [paginas List.concat]. rewrite IH.
    + apply firstn_skipn.
    + rewrite length_skipn. cbn [List.length] in *. lia.
    + assumption.
Qed.

Lemma paginas_Forall {A : Type} (n fuel : nat) :
  forall seq : list A,
    (0 < n)%nat ->
    Forall (fun p => (1 <= List.length p <= n)%nat) (paginas fuel n seq).
Proof.
  induction fuel as [|fuel IH]; intros seq Hn; [constructor|].
  destruct seq as [|x seq]; [constructor|].
  cbn [paginas]. constructor; [|now apply IH].
  rewrite length_firstn. cbn [List.length]. lia.
Qed.

Lemma paginas_length {A : Type} (fuel : nat) :
  forall seq : list A,
    (List.length seq <= fuel)%nat ->
    List.length (paginas fuel PAGE_SIZE seq)
    = ((List.length seq + 99) / 100)%nat.
Proof.
  unfold PAGE_SIZE.
  induction fuel as [|fuel IH]; intros seq Hlen.
  - destruct seq; [reflexivity | cbn [List.length] in Hlen; lia].
  - destruct seq as [|x seq]; [reflexivity|].
    cbn [paginas List.length]. rewrite IH.
    + rewrite length_skipn. cbn [List.length].
      set (k := List.length seq). clearbody k.
      pose proof (Nat.div_mod_eq (S k - 100 + 99) 100).
      pose proof (Nat.mod_upper_bound (S k - 100 + 99) 100 ltac:(lia)).
      pose proof (Nat.div_mod_eq (S k + 99) 100).
      pose proof (Nat.mod_upper_bound (S k + 99) 100 ltac:(lia)).
      lia.
    + rewrite length_skipn. cbn [List.length] in *. lia.
Qed.

(** The [i]-th page is the slice [seq[n * i : n * i + n]]. *)
Lemma paginas_nth {A : Type} (n fuel : nat) :
  forall (seq : list A) (i : nat) (page : list A),
    nth_error (paginas fuel n seq) i = Some page ->
    page = firstn n (skipn (n * i) seq).
Proof.
  induction fuel as [|fuel IH]; intros seq i page H.
  - destruct i; discriminate.
  - destruct seq as [|x seq]; [destruct i; discriminate|].
    cbn [paginas] in H. destruct i as [|i]; cbn [nth_error] in H.
    + injection H as <-. now rewrite Nat.mul_0_r.
    + apply IH in H. rewrite H, skipn_skipn. do 2 f_equal. lia.
Qed.

(** A sequence of [k] times [n] items gives full pages only. *)
Lemma paginas_llenas {A : Type} (n fuel : nat) :
  forall (k : nat) (seq : list A),
    List.length seq = (k * n)%nat ->
    Forall (fun p => List.length p = n) (paginas fuel n seq).
Proof.
  induction fuel as [|fuel IH]; intros k seq Hk; [constructor|].
  destruct seq as [|x seq]; [constructor|].
  destruct k as [|k]; [discriminate|].
  cbn [paginas]. constructor.
  - rewrite length_firstn, Hk. cbn [Nat.mul]. lia.
  - apply (IH k). rewrite length_skipn, Hk. cbn [Nat.mul]. lia.
Qed.

(** When the database accepts every statement, each page is sent. *)
Lemma ejecutar_paginas_ok (w : mundo) (sql : string)
    (pages : list (list (list valor))) :
  (forall page, In page pages -> al_insertar w sql page = None) ->
  ejecutar_paginas w sql pages = (map (Sentencia sql) pages, inr tt).
Proof.
  induction pages as [|page pages IH]; intros Hok; [reflexivity|].
  cbn [ejecutar_paginas map]. rewrite (Hok page (or_introl eq_refl)).
  rewrite IH by (intros p Hp; apply Hok; now right).
  reflexivity.
Qed.

(** Whatever the database answers, the trace of the call starts with the
    call itself. *)
Lemma tras_validacion_inicio (w : mundo) (values : list (list valor))
    (n : nat) :
  fst (tras_validacion w values n)
  = ExecuteValues insert_query values :: tl (fst (tras_validacion w values n)).
Proof.
  unfold tras_validacion, execute_values.
  destruct (ejecutar_paginas w insert_query (paginate values PAGE_SIZE))
    as [t [e | []]];
    [|destruct (al_confirmar w)]; reflexivity.
Qed.

Lemma tras_validacion_ok (w : mundo) (values : list (list valor)) (n : nat) :
  (forall page, In page (paginate values PAGE_SIZE) ->
                al_insertar w insert_query page = None) ->
  al_confirmar w = None ->
  tras_validacion w values n
  = (ExecuteValues insert_query values
       :: map (Sentencia insert_query) (paginate values PAGE_SIZE)
       ++ [Commit; CursorClose; ConnClose; Print (texto_insertados n)],
     inr tt)%list.
Proof.
  intros Hok Hk. unfold tras_validacion, execute_values.
  rewrite (ejecutar_paginas_ok _ _ _ Hok), Hk. reflexivity.
Qed.

(** The loader once connected: the validation step, which never stops it,
    then the insertion of the tuples of the rows it was given. *)
Lemma insertar_en_postgres_conectado (cfg : config) (w : mundo)
    (registros : list dict) (values : list (list valor)) :
  al_conectar w = None ->
  tuplas registros = inr values ->
  exists tv,
    try_except (validar cfg w) al_fallar_validacion = (tv, inr tt)
    /\ insertar_en_postgres cfg w registros
       = ((Connect :: Cursor :: tv)
          ++ fst (tras_validacion w values (List.length registros)),
          snd (tras_validacion w values (List.length registros)))%list.
Proof.
  intros Hc Hv. destruct (validacion_total cfg w) as (tv & Htv & _).
  exists tv. split; [assumption|].
  unfold insertar_en_postgres, tras_validacion. rewrite Hc, Htv, Hv.
  cbv [driver bind_accion emit lift ret print].
  destruct (execute_values w insert_query values) as [t [e | []]];
    [reflexivity|].
  destruct (al_confirmar w); reflexivity.
Qed.

(** [id in l] is membership in the list. *)
Lemma contiene_false (l : list string) (id : string) :
  contiene l id = false <-> ~ In id l.
Proof.
  unfold contiene. split.
  - intros H Hin.
    assert (E : existsb (String.eqb id) l = true).
    { apply existsb_exists. exists id. split; [assumption|].
      apply String.eqb_refl. }
    congruence.
  - intros H. destruct (existsb (String.eqb id) l) eqn:E; [|reflexivity].
    apply existsb_exists in E as (x & Hx & Heq).
    apply String.eqb_eq in Heq. subst x. contradiction.
Qed.

(** The line of a warning, written out. *)
Lemma avisos_texto (id tabla : string) (ids : list string) :
  ~ In id ids ->
  avisos id tabla ids
  = [Print ("ADVERTENCIA: " ++ id ++ " no existe en la tabla " ++ tabla
            ++ ". Usando el primero disponible: " ++ hd "NINGUNO" ids)].
Proof.
  intros H. apply contiene_false in H. unfold avisos. rewrite H.
  destruct ids; reflexivity.
Qed.

(** Sorting the events of a trace. *)
Lemma llamadas_validacion (tv : list evento) :
  forallb es_validacion tv = true ->
  filter (fun ev => negb (es_validacion ev)) tv = [].
Proof.
  induction tv as [|ev tv IH]; [reflexivity|].
  cbn [forallb filter]. intros H. apply andb_true_iff in H as [Hev Htv].
  rewrite Hev. cbn [negb]. now apply IH.
Qed.

Lemma llamadas_sentencias (sql : string) (pages : list (list (list valor))) :
  filter (fun ev => negb (es_validacion ev)) (map (Sentencia sql) pages)
  = map (Sentencia sql) pages.
Proof.
  induction pages as [|p pages IH]; [reflexivity|].
  cbn [map filter es_validacion negb]. now rewrite IH.
Qed.

Lemma sentencias_validacion (tv : list evento) :
  forallb es_validacion tv = true -> filter es_sentencia tv = [].
Proof.
  induction tv as [|ev tv IH]; [reflexivity|].
  cbn [forallb filter]. intros H. apply andb_true_iff in H as [Hev Htv].
  destruct ev; try discriminate; cbn [es_sentencia]; now apply IH.
Qed.

Lemma sentencias_map (sql : string) (pages : list (list (list valor))) :
  filter es_sentencia (map (Sentencia sql) pages) = map (Sentencia sql) pages.
Proof.
  induction pages as [|p pages IH]; [reflexivity|].
  cbn [map filter es_sentencia]. now rewrite IH.
Qed.

(** The pages of the tuples of a batch. *)
Lemma paginate_concat {A : Type} (seq : list A) :
  List.concat (paginate seq PAGE_SIZE) = seq.
Proof.
  unfold paginate. apply paginas_concat; [apply Nat.le_refl|].
  unfold PAGE_SIZE. lia.
Qed.

Lemma paginate_Forall {A : Type} (seq : list A) :
  Forall (fun p => (1 <= List.length p <= 100)%nat) (paginate seq PAGE_SIZE).
Proof.
  unfold paginate. apply (paginas_Forall PAGE_SIZE). unfold PAGE_SIZE. lia.
Qed.

Lemma paginate_length {A : Type} (seq : list A) :
  List.length (paginate seq PAGE_SIZE) = ((List.length seq + 99) / 100)%nat.
Proof. unfold paginate. apply paginas_length, Nat.le_refl. Qed.

Lemma paginate_nth {A : Type} (seq : list A) (i : nat) (page : list A) :
  nth_error (paginate seq PAGE_SIZE) i = Some page ->
  page = firstn 100 (skipn (100 * i) seq).
Proof. unfold paginate. apply (paginas_nth PAGE_SIZE). Qed.

Lemma tuplas_length (registros : list dict) (values : list (list valor)) :
  tuplas registros = inr values -> List.length values = List.length registros.
Proof.
  intros H. symmetry. exact (Forall2_length (tuplas_Forall2 _ _ H)).
Qed.

(** ** Rows, digests and failures of the loader *)


















(** * The claims *)

(** C1: the classifier follows the fixed upper-inclusive thresholds: tier 1
    up to 0.5, tier 2 above 0.5 up to 1, tier 3 above 1 up to 10, tier 4
    above 10 up to 50, tier 5 above 50 up to 500, tier 6 above 500; and it
    takes the listed values at the boundaries. *)
Theorem clasificar_ppm_umbrales (v : float) :
  ((v <=? 0.5)%float = true -> clasificar_ppm v = 1) /\
  ((0.5 <? v)%float = true -> (v <=? 1)%float = true -> clasificar_ppm v = 2) /\
  ((1 <? v)%float = true -> (v <=? 10)%float = true -> clasificar_ppm v = 3) /\
  ((10 <? v)%float = true -> (v <=? 50)%float = true -> clasificar_ppm v = 4) /\
  ((50 <? v)%float = true -> (v <=? 500)%float = true -> clasificar_ppm v = 5) /\
  ((500 <? v)%float = true -> clasificar_ppm v = 6) /\
  clasificar_ppm 0.5 = 1 /\ clasificar_ppm 0.51 = 2 /\ clasificar_ppm 1.0 = 2 /\
  clasificar_ppm 10.0 = 3 /\ clasificar_ppm 50.0 = 4 /\
  clasificar_ppm 500.0 = 5 /\ clasificar_ppm 500.01 = 6.
Proof.
  unfold clasificar_ppm.
  repeat split; try reflexivity; intros;
    repeat match goal with
    | H : (v <=? ?b)%float = true |- context [(v <=? ?b)%float] => rewrite H
    | H : (?a <? v)%float = true |- context [(v <=? ?b)%float] =>
        rewrite (above_not_leb a b v eq_refl H)
    end; reflexivity.
Qed.

Lemma clasificar_ppm_umbrales_witness :
  clasificar_ppm 7.25 = 3 /\ clasificar_ppm 0.75 = 2.
Proof.
  split.
  - apply (clasificar_ppm_umbrales 7.25); reflexivity.
  - apply (clasificar_ppm_umbrales 0.75); reflexivity.
Defined.

(** C6: the classifier is total: every float, negative ones, infinities and
    NaN included, gets a tier from 1 to 6, and every negative input gets
    tier 1. *)
Theorem clasificar_ppm_total (v : float) :
  In (clasificar_ppm v) [1; 2; 3; 4; 5; 6] /\
  ((v <? 0)%float = true -> clasificar_ppm v = 1).
Proof.
  split.
  - unfold clasificar_ppm.
    repeat match goal with
           | |- context [if ?b then _ else _] => destruct b
           end; cbn [In]; tauto.
  - intros Hneg. unfold clasificar_ppm.
    destruct (v <=? 0.5)%float eqn:H; [reflexivity|].
    assert (Hle : (v <=? 0)%float = true).
    { rewrite ltb_spec in Hneg. rewrite leb_spec.
      unfold SFltb in Hneg. unfold SFleb.
      destruct (SFcompare (Prim2SF v) (Prim2SF 0)) as [[]|]; congruence. }
    rewrite (leb_trans v 0 0.5 Hle eq_refl) in H. discriminate.
Qed.

Lemma clasificar_ppm_total_witness :
  clasificar_ppm (-3.5) = 1 /\ clasificar_ppm neg_infinity = 1.
Proof.
  split.
  - apply (clasificar_ppm_total (-3.5)). reflexivity.
  - apply (clasificar_ppm_total neg_infinity). reflexivity.
Defined.

(** C2 (as stated): two readings asked for from five seconds before the end
    of the calendar: the second one would be dated ten seconds later, which
    is no [datetime]; the run raises [OverflowError] and returns nothing. *)
Lemma generar_registros_simulados_desborda :
  let inicio := mkDatetime (mkDate 9999 12 31) (mkTime 23 59 55 0) in
  valid_datetime inicio = true /\
  add_seconds inicio 10 = None /\
  generar_registros_simulados 2 "A1S01" "A1M01" "A1" "A" inicio azar_ejemplo
    = inl OverflowError /\
  ~ (exists registros,
       generar_registros_simulados 2 "A1S01" "A1M01" "A1" "A" inicio azar_ejemplo
         = inr registros
       /\ List.length registros = 2%nat).
Proof.
  cbv zeta.
  assert (E : generar_registros_simulados 2 "A1S01" "A1M01" "A1" "A"
                (mkDatetime (mkDate 9999 12 31) (mkTime 23 59 55 0)) azar_ejemplo
              = inl OverflowError) by (vm_compute; reflexivity).
  split; [reflexivity | split; [reflexivity | split; [exact E|]]].
  intros (registros & H & _). rewrite E in H. discriminate.
Qed.

(** C2 (amended): for every count [N >= 0], every sensor identifier that
    UTF-8 can encode (a [str] holding no lone surrogate), any other
    equipment identifiers, and every well-formed starting timestamp such
    that the start plus [N] times 10 seconds is still a representable
    [datetime], the generator returns exactly [N] readings; the [i]-th one
    carries the date and the time of the start plus [i] times 10 seconds,
    so the instants are 10 seconds apart and strictly increasing in
    (date, time). *)
Theorem generar_registros_simulados_tiempos (N : Z) (s m l f : string)
    (inicio : datetime) (rnd : azar) :
  0 <= N -> PyStr.has_surrogate s = false ->
  valid_datetime inicio = true ->
  add_seconds inicio (10 * N) <> None ->
  exists registros,
    generar_registros_simulados N s m l f inicio rnd = inr registros /\
    Z.of_nat (List.length registros) = N /\
    (forall i, 0 <= i < N ->
       exists dt row,
         add_seconds inicio (10 * i) = Some dt /\
         nth_error registros (Z.to_nat i) = Some row /\
         dict_get "fecha" row = Some (VDate (dt_date dt)) /\
         dict_get "hora" row = Some (VTime (dt_time dt)) /\
         timestamp dt = timestamp inicio + 10 * i) /\
    (forall i j dti dtj, 0 <= i < j -> j < N ->
       add_seconds inicio (10 * i) = Some dti ->
       add_seconds inicio (10 * j) = Some dtj ->
       datetime_lt dti dtj).
Proof.
  intros HN Hs Hv Hr.
  destruct (generar_ok s m l f rnd inicio Hv Hs N)
    as (registros & Hg & Hlen & Hnth).
  { replace (Z.max 0 N) with N by lia. assumption. }
  exists registros. split; [assumption|]. split; [lia|]. split.
  - intros i Hi.
    destruct (Hnth (Z.to_nat i) ltac:(lia)) as (dt & row & Hdt & Hrow & Hes).
    rewrite Z2Nat.id in Hdt by lia.
    exists dt, row. destruct Hes as (_ & Hfecha & Hhora & _).
    repeat split; try assumption.
    exact (timestamp_add_seconds _ _ _ Hdt).
  - intros i j dti dtj Hij Hj Hi' Hj'.
    apply timestamp_lt_datetime_lt.
    + exact (add_seconds_valid _ _ _ Hv Hi').
    + exact (add_seconds_valid _ _ _ Hv Hj').
    + rewrite (timestamp_add_seconds _ _ _ Hi'), (timestamp_add_seconds _ _ _ Hj').
      lia.
Qed.

Lemma generar_registros_simulados_tiempos_witness :
  exists registros,
    generar_registros_simulados 3 "A1S01" "A1M01" "A1" "A"
      (FECHA_INICIAL config_script) azar_ejemplo = inr registros /\
    Z.of_nat (List.length registros) = 3 /\
    (forall i, 0 <= i < 3 ->
       exists dt row,
         add_seconds (FECHA_INICIAL config_script) (10 * i) = Some dt /\
         nth_error registros (Z.to_nat i) = Some row /\
         dict_get "fecha" row = Some (VDate (dt_date dt)) /\
         dict_get "hora" row = Some (VTime (dt_time dt)) /\
         timestamp dt = timestamp (FECHA_INICIAL config_script) + 10 * i) /\
    (forall i j dti dtj, 0 <= i < j -> j < 3 ->
       add_seconds (FECHA_INICIAL config_script) (10 * i) = Some dti ->
       add_seconds (FECHA_INICIAL config_script) (10 * j) = Some dtj ->
       datetime_lt dti dtj).
Proof.
  apply (generar_registros_simulados_tiempos 3 "A1S01" "A1M01" "A1" "A"
           (FECHA_INICIAL config_script) azar_ejemplo).
  - lia.
  - reflexivity.
  - reflexivity.
  - vm_compute. discriminate.
Defined.

(** C5: every reading the generator returns stores the tier of the
    concentration it stores: [id_clasificacion] is [clasificar_ppm] of
    [ppm_benceno]. *)
Theorem clasificacion_consistente (N : Z) (s m l f : string)
    (inicio : datetime) (rnd : azar) (registros : list dict) (row : dict) :
  generar_registros_simulados N s m l f inicio rnd = inr registros ->
  In row registros ->
  exists ppm,
    dict_get "ppm_benceno" row = Some (VFloat ppm) /\
    dict_get "id_clasificacion" row = Some (VInt (clasificar_ppm ppm)).
Proof.
  intros Hgen Hin.
  destruct (generar_filas _ _ _ _ _ _ _ _ _ Hgen Hin) as (instante & k & Hes).
  exists (ppm_simulado rnd k).
  destruct Hes as (_ & _ & _ & _ & _ & _ & _ & Hppm & Hclas & _).
  split; assumption.
Qed.

Lemma lecturas_ejemplo_generadas :
  generar_registros_simulados 2 "A1S01" "A1M01" "A1" "A"
    (FECHA_INICIAL config_script) azar_ejemplo = inr lecturas_ejemplo.
Proof. vm_compute. reflexivity. Qed.

Lemma clasificacion_consistente_witness :
  exists ppm,
    dict_get "ppm_benceno" (nth 1 lecturas_ejemplo []) = Some (VFloat ppm) /\
    dict_get "id_clasificacion" (nth 1 lecturas_ejemplo [])
      = Some (VInt (clasificar_ppm ppm)).
Proof.
  apply (clasificacion_consistente 2 "A1S01" "A1M01" "A1" "A"
           (FECHA_INICIAL config_script) azar_ejemplo lecturas_ejemplo).
  - vm_compute. reflexivity.
  - vm_compute. right. left. reflexivity.
Defined.

(** C9: every reading the generator returns has a concentration from 0 to
    80, whatever the draws of [[0, 1)]: it is the float nearest to a whole
    number of hundredths between 0 and 8000. *)
Theorem ppm_benceno_en_rango (N : Z) (s m l f : string) (inicio : datetime)
    (rnd : azar) (registros : list dict) (row : dict) :
  (forall k, (0 <=? rnd k)%float = true /\ (rnd k <? 1)%float = true) ->
  generar_registros_simulados N s m l f inicio rnd = inr registros ->
  In row registros ->
  exists ppm d,
    dict_get "ppm_benceno" row = Some (VFloat ppm) /\
    (0 <=? ppm)%float = true /\ (ppm <=? 80)%float = true /\
    0 <= d <= 8000 /\ Prim2SF ppm = centesimas d.
Proof.
  intros Hrnd Hgen Hin.
  destruct (generar_filas _ _ _ _ _ _ _ _ _ Hgen Hin) as (instante & k & Hes).
  destruct (Hrnd k) as [H0 H1].
  destruct (ppm_simulado_rango rnd k H0 H1) as ((d & Hd & E) & Hlo & Hhi).
  exists (ppm_simulado rnd k), d.
  destruct Hes as (_ & _ & _ & _ & _ & _ & _ & Hppm & _).
  repeat split; try assumption; lia.
Qed.

Lemma azar_ejemplo_unitario (k : nat) :
  (0 <=? azar_ejemplo k)%float = true /\ (azar_ejemplo k <? 1)%float = true.
Proof.
  unfold azar_ejemplo.
  do 12 (destruct k as [|k]; [vm_compute; split; reflexivity|]).
  destruct k; vm_compute; split; reflexivity.
Qed.

Lemma ppm_benceno_en_rango_witness :
  exists ppm d,
    dict_get "ppm_benceno" (nth 1 lecturas_ejemplo []) = Some (VFloat ppm) /\
    (0 <=? ppm)%float = true /\ (ppm <=? 80)%float = true /\
    0 <= d <= 8000 /\ Prim2SF ppm = centesimas d.
Proof.
  apply (ppm_benceno_en_rango 2 "A1S01" "A1M01" "A1" "A"
           (FECHA_INICIAL config_script) azar_ejemplo lecturas_ejemplo).
  - exact azar_ejemplo_unitario.
  - vm_compute. reflexivity.
  - vm_compute. right. left. reflexivity.
Defined.

(** C4: the integrity hash depends on the four fields [fecha], [hora],
    [id_sensor] and [ppm_benceno] only: two rows that agree on them have the
    same hash, whatever their other fields; and on the first reading of the
    example run, changing any one of the four changes the digest, while
    changing another field does not. *)
Theorem hash_integridad_cuatro_campos :
  (forall r1 r2 : dict,
     dict_get "fecha" r1 = dict_get "fecha" r2 ->
     dict_get "hora" r1 = dict_get "hora" r2 ->
     dict_get "id_sensor" r1 = dict_get "id_sensor" r2 ->
     dict_get "ppm_benceno" r1 = dict_get "ppm_benceno" r2 ->
     generar_hash_integridad r1 = generar_hash_integridad r2) /\
  generar_hash_integridad lectura_ejemplo
    = inr "fc0f1a6ca1b8ff7ad287e16af45178ce" /\
  generar_hash_integridad
    (dict_set "fecha" (VDate (mkDate 2025 1 2)) lectura_ejemplo)
    <> generar_hash_integridad lectura_ejemplo /\
  generar_hash_integridad
    (dict_set "hora" (VTime (mkTime 8 0 10 0)) lectura_ejemplo)
    <> generar_hash_integridad lectura_ejemplo /\
  generar_hash_integridad
    (dict_set "id_sensor" (VStr "A1S02") lectura_ejemplo)
    <> generar_hash_integridad lectura_ejemplo /\
  generar_hash_integridad
    (dict_set "ppm_benceno" (VFloat 12.35) lectura_ejemplo)
    <> generar_hash_integridad lectura_ejemplo /\
  generar_hash_integridad
    (dict_set "temperatura" (VFloat 30.5)
       (dict_set "id_micro" (VStr "A1M02") lectura_ejemplo))
    = generar_hash_integridad lectura_ejemplo.
Proof.
  split.
  { intros r1 r2 H1 H2 H3 H4. unfold generar_hash_integridad, subscript.
    rewrite H1, H2, H3, H4. reflexivity. }
  repeat split; try (vm_compute; reflexivity);
    intros H; vm_compute in H; discriminate.
Qed.

Lemma hash_integridad_cuatro_campos_witness :
  generar_hash_integridad
    (dict_set "humedad" (VFloat 55.5) lectura_ejemplo)
  = generar_hash_integridad lectura_ejemplo.
Proof.
  apply (proj1 hash_integridad_cuatro_campos); vm_compute; reflexivity.
Defined.
Lemma Forall2_In_r {A B : Type} (R : A -> B -> Prop) (l1 : list A)
    (l2 : list B) (y : B) :
  Forall2 R l1 l2 -> In y l2 -> exists x, In x l1 /\ R x y.
Proof.
  induction 1 as [|x y' l1 l2 HR _ IH]; cbn [In]; [tauto|].
  intros [<- | Hin].
  - exists x. tauto.
  - destruct (IH Hin) as (x' & Hx' & HR'). exists x'. tauto.
Qed.

(** C3: when a configured identifier is absent from the identifiers a
    reference query returned, the loader prints, before the bulk insert,
    the line [ADVERTENCIA: <id> no existe en la tabla <tabla>. Usando el
    primero disponible: <x>] where [<x>] is the first identifier returned
    (['NINGUNO'] when none was), and goes on: the bulk insert that follows
    receives one tuple per generated row, with the values of the row's
    columns, and every tuple carries the configured identifiers, whether a
    warning was printed or not. *)
Theorem advertencia_no_sustituye (cfg : config) (rnd : azar) (w : mundo)
    (sensores micros lineas fabricas : list string) (registros : list dict) :
  al_conectar w = None ->
  al_consultar w SQL_SENSOR = inr sensores ->
  al_consultar w SQL_MICRO = inr micros ->
  al_consultar w SQL_LINEA = inr lineas ->
  al_consultar w SQL_FABRICA = inr fabricas ->
  generar_registros_simulados (NUM_REGISTROS cfg) (ID_SENSOR cfg)
    (ID_MICRO cfg) (ID_LINEA cfg) (ID_FABRICA cfg) (FECHA_INICIAL cfg) rnd
    = inr registros ->
  exists pre values post,
    fst (insertar_en_postgres cfg w registros)
      = (pre ++ ExecuteValues insert_query values :: post)%list /\
    Forall2 (fun r t => map Some t = map (fun c => dict_get c r) columnas_insert)
      registros values /\
    (~ In (ID_SENSOR cfg) sensores ->
     In (Print ("ADVERTENCIA: " ++ ID_SENSOR cfg
                ++ " no existe en la tabla sensor. Usando el primero disponible: "
                ++ hd "NINGUNO" sensores)) pre) /\
    (~ In (ID_MICRO cfg) micros ->
     In (Print ("ADVERTENCIA: " ++ ID_MICRO cfg
                ++ " no existe en la tabla microcontrolador. Usando el primero disponible: "
                ++ hd "NINGUNO" micros)) pre) /\
    (~ In (ID_LINEA cfg) lineas ->
     In (Print ("ADVERTENCIA: " ++ ID_LINEA cfg
                ++ " no existe en la tabla linea. Usando el primero disponible: "
                ++ hd "NINGUNO" lineas)) pre) /\
    (~ In (ID_FABRICA cfg) fabricas ->
     In (Print ("ADVERTENCIA: " ++ ID_FABRICA cfg
                ++ " no existe en la tabla fabrica. Usando el primero disponible: "
                ++ hd "NINGUNO" fabricas)) pre) /\
    (forall t, In t values ->
       nth_error t 2 = Some (VStr (ID_SENSOR cfg)) /\
       nth_error t 3 = Some (VStr (ID_MICRO cfg)) /\
       nth_error t 4 = Some (VStr (ID_LINEA cfg)) /\
       nth_error t 5 = Some (VStr (ID_FABRICA cfg))).
Proof.
  intros Hc Hs Hm Hl Hf Hgen.
  assert (Hrows : Forall (fun r => exists t, tupla r = inr t) registros).
  { apply Forall_forall. intros r Hr.
    destruct (generar_filas _ _ _ _ _ _ _ _ _ Hgen Hr) as (dt & k & Hes).
    destruct (tupla_es_lectura _ _ _ _ _ _ _ _ Hes) as (t & Ht & _).
    now exists t. }
  destruct (tuplas_total _ Hrows) as [values Hvalues].
  destruct (insertar_en_postgres_conectado cfg w registros values Hc Hvalues)
    as (tv & Htv & Hins).
  rewrite (validar_ok cfg w _ _ _ _ Hs Hm Hl Hf) in Htv.
  cbv [try_except] in Htv. injection Htv as Etv.
  exists (Connect :: Cursor :: tv), values,
    (tl (fst (tras_validacion w values (List.length registros)))).
  split.
  { rewrite Hins. cbn [fst]. f_equal. apply tras_validacion_inicio. }
  split.
  { eapply Forall2_impl; [|exact (tuplas_Forall2 _ _ Hvalues)].
    intros r t. apply tupla_columnas. }
  assert (Hids : forall t, In t values ->
            exists t', t = t'
              /\ nth_error t' 2 = Some (VStr (ID_SENSOR cfg))
              /\ nth_error t' 3 = Some (VStr (ID_MICRO cfg))
              /\ nth_error t' 4 = Some (VStr (ID_LINEA cfg))
              /\ nth_error t' 5 = Some (VStr (ID_FABRICA cfg))).
  { intros t Ht.
    destruct (Forall2_In_r _ _ _ _ (tuplas_Forall2 _ _ Hvalues) Ht)
      as (r & Hr & Hrt).
    destruct (generar_filas _ _ _ _ _ _ _ _ _ Hgen Hr) as (dt & k & Hes).
    destruct (tupla_es_lectura _ _ _ _ _ _ _ _ Hes) as (t' & Ht' & H').
    exists t'. split; [congruence | exact H']. }
  split; [|split; [|split; [|split]]].
  - intros H. right. right. rewrite <- Etv. do 13 apply in_cons.
    apply in_or_app. left.
    rewrite (avisos_texto _ "sensor" _ H). now left.
  - intros H. right. right. rewrite <- Etv. do 13 apply in_cons.
    apply in_or_app. right. apply in_or_app. left.
    rewrite (avisos_texto _ "microcontrolador" _ H). now left.
  - intros H. right. right. rewrite <- Etv. do 13 apply in_cons.
    apply in_or_app. right. apply in_or_app. right. apply in_or_app. left.
    rewrite (avisos_texto _ "linea" _ H). now left.
  - intros H. right. right. rewrite <- Etv. do 13 apply in_cons.
    apply in_or_app. right. apply in_or_app. right. apply in_or_app. right.
    apply in_or_app. left.
    rewrite (avisos_texto _ "fabrica" _ H). now left.
  - intros t Ht. destruct (Hids t Ht) as (t' & -> & H'). exact H'.
Qed.

Lemma advertencia_no_sustituye_witness :
  exists pre values post,
    fst (insertar_en_postgres config_ejemplo mundo_ejemplo lecturas_ejemplo)
      = (pre ++ ExecuteValues insert_query values :: post)%list /\
    Forall2 (fun r t => map Some t = map (fun c => dict_get c r) columnas_insert)
      lecturas_ejemplo values /\
    (~ In "A1S01" [] ->
     In (Print "ADVERTENCIA: A1S01 no existe en la tabla sensor. Usando el primero disponible: NINGUNO")
        pre) /\
    (~ In "A1M01" ["A1M01"; "A1M02"] ->
     In (Print "ADVERTENCIA: A1M01 no existe en la tabla microcontrolador. Usando el primero disponible: A1M01")
        pre) /\
    (~ In "A1" ["B1"; "B2"] ->
     In (Print "ADVERTENCIA: A1 no existe en la tabla linea. Usando el primero disponible: B1")
        pre) /\
    (~ In "A" ["A"] ->
     In (Print "ADVERTENCIA: A no existe en la tabla fabrica. Usando el primero disponible: A")
        pre) /\
    (forall t, In t values ->
       nth_error t 2 = Some (VStr "A1S01") /\
       nth_error t 3 = Some (VStr "A1M01") /\
       nth_error t 4 = Some (VStr "A1") /\
       nth_error t 5 = Some (VStr "A")).
Proof.
  apply (advertencia_no_sustituye config_ejemplo azar_ejemplo mundo_ejemplo
           [] ["A1M01"; "A1M02"] ["B1"; "B2"] ["A"] lecturas_ejemplo);
    vm_compute; reflexivity.
Defined.

(** C7: when a reference query fails, the loader logs the failure and goes
    on to the bulk insert, which receives the tuples of the rows; these
    tuples do not depend on the database, so the same insert is issued
    whatever the outcome of the validation. *)
Theorem validacion_fallida_no_impide (cfg : config) (w : mundo)
    (registros : list dict) (values : list (list valor)) (e : excepcion) :
  al_conectar w = None ->
  tuplas registros = inr values ->
  primera_falla w = Some e ->
  (exists pre post,
     fst (insertar_en_postgres cfg w registros)
     = (pre ++ [Print ("Error al consultar tablas relacionadas: "
                       ++ str_excepcion e);
                Print ("Continuando con la inserción..." ++ PyStr.newline);
                ExecuteValues insert_query values] ++ post)%list) /\
  (forall w', al_conectar w' = None ->
     exists pre post,
       forallb es_validacion pre = true /\
       fst (insertar_en_postgres cfg w' registros)
       = (Connect :: Cursor :: pre
          ++ ExecuteValues insert_query values :: post)%list).
Proof.
  intros Hc Hv Hfalla.
  assert (Hhead : forall w', fst (tras_validacion w' values (List.length registros))
                  = ExecuteValues insert_query values
                    :: tl (fst (tras_validacion w' values (List.length registros)))).
  { intros w'. apply tras_validacion_inicio. }
  split.
  - destruct (insertar_en_postgres_conectado cfg w registros values Hc Hv)
      as (tv & Htv & Hins).
    destruct (validacion_total cfg w) as (tv' & Htv' & _ & Hlog).
    rewrite Htv in Htv'. injection Htv' as <-.
    rewrite Hfalla in Hlog. destruct Hlog as (tv0 & ->).
    exists (Connect :: Cursor :: tv0),
      (tl (fst (tras_validacion w values (List.length registros)))).
    rewrite Hins. cbn [fst]. rewrite Hhead.
    cbn [app]. rewrite <- !app_assoc. reflexivity.
  - intros w' Hc'.
    destruct (insertar_en_postgres_conectado cfg w' registros values Hc' Hv)
      as (tv & Htv & Hins).
    destruct (validacion_total cfg w') as (tv' & Htv' & Hval & _).
    rewrite Htv in Htv'. injection Htv' as <-.
    exists tv, (tl (fst (tras_validacion w' values (List.length registros)))).
    split; [assumption|].
    rewrite Hins. cbn [fst]. rewrite Hhead. reflexivity.
Qed.

Lemma validacion_fallida_no_impide_witness :
  (exists pre post,
     fst (insertar_en_postgres config_ejemplo mundo_sin_tablas lecturas_ejemplo)
     = (pre ++ [Print ("Error al consultar tablas relacionadas: "
                       ++ "relation does not exist");
                Print ("Continuando con la inserción..." ++ PyStr.newline);
                ExecuteValues insert_query tuplas_ejemplo] ++ post)%list) /\
  (forall w', al_conectar w' = None ->
     exists pre post,
       forallb es_validacion pre = true /\
       fst (insertar_en_postgres config_ejemplo w' lecturas_ejemplo)
       = (Connect :: Cursor :: pre
          ++ ExecuteValues insert_query tuplas_ejemplo :: post)%list).
Proof.
  apply (validacion_fallida_no_impide config_ejemplo mundo_sin_tablas
           lecturas_ejemplo tuplas_ejemplo
           (DatabaseError "relation does not exist"));
    vm_compute; reflexivity.
Defined.

(** C8 (as stated): the run of the script, 1000 readings, on a database
    that accepts everything.  The loader calls [execute_values] once with
    the 1000 tuples, and the call sends them as 10 [INSERT] statements of
    100 tuples each, not as a single statement. *)
Lemma insercion_en_diez_sentencias :
  exists registros values,
    generar_registros_simulados (NUM_REGISTROS config_script)
      (ID_SENSOR config_script) (ID_MICRO config_script)
      (ID_LINEA config_script) (ID_FABRICA config_script)
      (FECHA_INICIAL config_script) azar_ejemplo = inr registros /\
    List.length registros = 1000%nat /\
    snd (insertar_en_postgres config_script mundo_ejemplo registros) = inr tt /\
    filter es_sentencia
      (fst (insertar_en_postgres config_script mundo_ejemplo registros))
    = map (Sentencia insert_query) (paginate values PAGE_SIZE) /\
    List.concat (paginate values PAGE_SIZE) = values /\
    List.length values = 1000%nat /\
    List.length (paginate values PAGE_SIZE) = 10%nat /\
    Forall (fun page => List.length page = 100%nat) (paginate values PAGE_SIZE) /\
    ~ (exists pre post,
         fst (insertar_en_postgres config_script mundo_ejemplo registros)
         = (pre ++ Sentencia insert_query values :: post)%list).
Proof.
  destruct (generar_ok (ID_SENSOR config_script) (ID_MICRO config_script)
              (ID_LINEA config_script) (ID_FABRICA config_script) azar_ejemplo
              (FECHA_INICIAL config_script) eq_refl eq_refl
              (NUM_REGISTROS config_script))
    as (registros & Hgen & Hlen & _).
  { vm_compute. discriminate. }
  change (Z.to_nat (NUM_REGISTROS config_script)) with 1000%nat in Hlen.
  assert (Hrows : Forall (fun r => exists t, tupla r = inr t) registros).
  { apply Forall_forall. intros r Hr.
    destruct (generar_filas _ _ _ _ _ _ _ _ _ Hgen Hr) as (dt & k & Hes).
    destruct (tupla_es_lectura _ _ _ _ _ _ _ _ Hes) as (t & Ht & _).
    now exists t. }
  destruct (tuplas_total _ Hrows) as [values Hvalues].
  pose proof (tuplas_length _ _ Hvalues) as Hlv. rewrite Hlen in Hlv.
  destruct (insertar_en_postgres_conectado config_script mundo_ejemplo
              registros values eq_refl Hvalues) as (tv & Htv & Hins).
  destruct (validacion_total config_script mundo_ejemplo)
    as (tv' & Htv' & Hval & _).
  rewrite Htv in Htv'. injection Htv' as <-.
  rewrite (tras_validacion_ok mundo_ejemplo values _ (fun _ _ => eq_refl) eq_refl)
    in Hins.
  cbn [fst snd] in Hins.
  assert (Hsent : filter es_sentencia
                    (fst (insertar_en_postgres config_script mundo_ejemplo
                            registros))
                  = map (Sentencia insert_query) (paginate values PAGE_SIZE)).
  { rewrite Hins. cbn [fst app filter es_sentencia].
    rewrite filter_app, (sentencias_validacion _ Hval).
    cbn [app filter es_sentencia].
    rewrite filter_app, sentencias_map. cbn [filter es_sentencia].
    apply app_nil_r. }
  assert (Hnum : List.length (paginate values PAGE_SIZE) = 10%nat).
  { rewrite paginate_length, Hlv. reflexivity. }
  assert (Hpag : Forall (fun page => List.length page = 100%nat)
                   (paginate values PAGE_SIZE)).
  { unfold paginate, PAGE_SIZE. apply (paginas_llenas 100 _ 10).
    rewrite Hlv. reflexivity. }
  exists registros, values.
  split; [exact Hgen|]. split; [exact Hlen|].
  split; [rewrite Hins; reflexivity|].
  split; [exact Hsent|].
  split; [apply paginate_concat|].
  split; [exact Hlv|]. split; [exact Hnum|]. split; [exact Hpag|].
  intros (pre & post & E).
  assert (Hin : In (Sentencia insert_query values)
                   (map (Sentencia insert_query) (paginate values PAGE_SIZE))).
  { rewrite <- Hsent. apply filter_In. split; [|reflexivity].
    rewrite E. apply in_or_app. right. now left. }
  apply in_map_iff in Hin as (page & Epage & Hpage).
  injection Epage as ->.
  rewrite Forall_forall in Hpag. specialize (Hpag _ Hpage). lia.
Qed.

(** C8 (amended): when the database accepts every statement and the
    commit, the loader calls [execute_values] once with the tuples of all
    the rows; the call sends them in order as one [INSERT] statement per
    page of at most 100 tuples (the count of the rows divided by 100,
    rounded up; page [i] holds the tuples from [100 * i] on), all in one
    transaction; then the loader commits once and
    closes the cursor and the connection.  The statement names the eighteen
    columns in the order of the keys of a generated row, and every tuple
    lists the values of these columns in that order. *)
Theorem insercion_por_lotes (cfg : config) (w : mundo)
    (registros : list dict) (values : list (list valor)) :
  al_conectar w = None ->
  tuplas registros = inr values ->
  (forall page, In page (paginate values PAGE_SIZE) ->
                al_insertar w insert_query page = None) ->
  al_confirmar w = None ->
  (exists tv,
     forallb es_validacion tv = true /\
     insertar_en_postgres cfg w registros
     = ((Connect :: Cursor :: tv)
        ++ ExecuteValues insert_query values
           :: map (Sentencia insert_query) (paginate values PAGE_SIZE)
        ++ [Commit; CursorClose; ConnClose;
            Print ("Se insertaron "
                   ++ PyStr.decimal (Z.of_nat (List.length registros))
                   ++ " registros en monitoreo_produccion.lecturas")],
        inr tt)%list) /\
  llamadas (fst (insertar_en_postgres cfg w registros))
    = (Connect :: Cursor :: ExecuteValues insert_query values
       :: map (Sentencia insert_query) (paginate values PAGE_SIZE)
       ++ [Commit; CursorClose; ConnClose])%list /\
  List.concat (paginate values PAGE_SIZE) = values /\
  Forall (fun page => (1 <= List.length page <= 100)%nat)
    (paginate values PAGE_SIZE) /\
  List.length (paginate values PAGE_SIZE)
    = ((List.length registros + 99) / 100)%nat /\
  (forall i page, nth_error (paginate values PAGE_SIZE) i = Some page ->
                  page = firstn 100 (skipn (100 * i) values)) /\
  Forall2 (fun r t => map Some t = map (fun c => dict_get c r) columnas_insert)
    registros values /\
  columnas_insert
    = ["fecha"; "hora"; "id_sensor"; "id_micro"; "id_linea"; "id_fabrica";
       "ppm_benceno"; "id_clasificacion"; "geo_latitud"; "geo_longitud";
       "geo_altitud"; "temperatura"; "humedad"; "estado_transmision";
       "timestamp_envio"; "observaciones"; "hash_integridad";
       "origen_formato"] /\
  insert_query
    = "INSERT INTO monitoreo_produccion.lecturas (fecha, hora, id_sensor, id_micro, id_linea, id_fabrica, ppm_benceno, id_clasificacion, geo_latitud, geo_longitud, geo_altitud, temperatura, humedad, estado_transmision, timestamp_envio, observaciones, hash_integridad, origen_formato) VALUES %s" /\
  (forall s m l f instante rnd k row,
     fila_simulada s m l f instante rnd k = inr row ->
     keys row = columnas_insert).
Proof.
  intros Hc Hv Hi Hk.
  destruct (insertar_en_postgres_conectado cfg w registros values Hc Hv)
    as (tv & Htv & Hins).
  destruct (validacion_total cfg w) as (tv' & Htv' & Hval & _).
  rewrite Htv in Htv'. injection Htv' as <-.
  rewrite (tras_validacion_ok w values _ Hi Hk) in Hins.
  cbn [fst snd] in Hins.
  split; [exists tv; split; assumption|].
  split.
  { rewrite Hins. cbn [fst]. unfold llamadas.
    cbn [app filter es_validacion negb].
    rewrite filter_app, (llamadas_validacion _ Hval).
    cbn [app filter es_validacion negb].
    rewrite filter_app, llamadas_sentencias. reflexivity. }
  split; [apply paginate_concat|].
  split; [apply paginate_Forall|].
  split; [rewrite paginate_length, (tuplas_length _ _ Hv); reflexivity|].
  split; [apply paginate_nth|].
  split.
  { eapply Forall2_impl; [|exact (tuplas_Forall2 _ _ Hv)].
    intros r t. apply tupla_columnas. }
  split; [reflexivity|]. split; [reflexivity|].
  intros s m l f instante rnd k row Hrow.
  destruct (fila_simulada_inr s m l f instante rnd k row Hrow) as (_ & Hes).
  apply Hes.
Qed.

Lemma insercion_por_lotes_witness :
  llamadas (fst (insertar_en_postgres config_ejemplo mundo_ejemplo
                   lecturas_ejemplo))
  = [Connect; Cursor; ExecuteValues insert_query tuplas_ejemplo;
     Sentencia insert_query tuplas_ejemplo; Commit; CursorClose; ConnClose].
Proof.
  apply (insercion_por_lotes config_ejemplo mundo_ejemplo lecturas_ejemplo
           tuplas_ejemplo);
    [reflexivity | vm_compute; reflexivity | reflexivity | reflexivity].
Defined.

(** C10: the warnings never index an empty list: the alternative is the
    first identifier when there is one and the placeholder ['NINGUNO']
    otherwise, so when the four queries answer, whatever lists they return,
    the validation step raises nothing, and an empty list gives the warning
    with the placeholder. *)
Theorem advertencia_segura (cfg : config) (w : mundo)
    (sensores micros lineas fabricas : list string) :
  al_consultar w SQL_SENSOR = inr sensores ->
  al_consultar w SQL_MICRO = inr micros ->
  al_consultar w SQL_LINEA = inr lineas ->
  al_consultar w SQL_FABRICA = inr fabricas ->
  snd (validar cfg w) = inr tt /\
  (forall l, primero l = inl IndexError <-> l = []) /\
  (forall l, primero_o_ninguno l
             = inr (match l with [] => "NINGUNO" | x :: _ => x end)) /\
  (sensores = [] ->
   In (Print (texto_advertencia (ID_SENSOR cfg) "sensor" "NINGUNO"))
      (fst (validar cfg w))) /\
  (micros = [] ->
   In (Print (texto_advertencia (ID_MICRO cfg) "microcontrolador" "NINGUNO"))
      (fst (validar cfg w))) /\
  (lineas = [] ->
   In (Print (texto_advertencia (ID_LINEA cfg) "linea" "NINGUNO"))
      (fst (validar cfg w))) /\
  (fabricas = [] ->
   In (Print (texto_advertencia (ID_FABRICA cfg) "fabrica" "NINGUNO"))
      (fst (validar cfg w))).
Proof.
  intros Hs Hm Hl Hf. rewrite (validar_ok cfg w _ _ _ _ Hs Hm Hl Hf).
  cbn [fst snd]. split; [reflexivity|].
  split; [intros [|x l]; cbn [primero]; split; intros; congruence|].
  split; [intros l; apply primero_o_ninguno_ok|].
  repeat split; intros ->; cbn [app]; do 13 apply in_cons;
    repeat (apply in_or_app; first [left; now left | right]).
Qed.

Lemma advertencia_segura_witness :
  snd (validar config_ejemplo mundo_ejemplo) = inr tt /\
  In (Print (texto_advertencia "A1S01" "sensor" "NINGUNO"))
     (fst (validar config_ejemplo mundo_ejemplo)).
Proof.
  destruct (advertencia_segura config_ejemplo mundo_ejemplo
              [] ["A1M01"; "A1M02"] ["B1"; "B2"] ["A"]
              eq_refl eq_refl eq_refl eq_refl) as (H1 & _ & _ & H2 & _).
  split; [exact H1 | exact (H2 eq_refl)].
Defined.

(** * Further properties of the script *)

(** ** The generator at its limits *)









(** ** The rows of a run *)





(** ** Failures of the loader *)











(** ** The script as a whole *)



